(** * Workout tracker: record store, PR evaluator and streak

    A shallow embedding of [database.py] (the PostgreSQL-backed record store
    and its queries) and of the two submit flows of [app.py], together with
    the properties the specification states about them.

    Modelling conventions.
    - A table is the list of its rows, in insertion order.
    - [SERIAL] keys are drawn from a counter kept in the store.
    - [DATE] values are proleptic Gregorian ordinals ([date.toordinal()]),
      so [d - timedelta(days=1)] is [d - 1].
    - Python [float] values are rationals ([Q]).  Where the code truncates
      the result of a floating-point operation ([int(miles * 10)] and the
      seconds of a displayed pace) the operation is rounded as the
      hardware rounds it, by [round_double]: IEEE 754 binary64, to nearest,
      ties to even.  Values of magnitude [2^1024] and above, which the
      hardware turns into infinities, are outside the model.
    - The comparisons of the PR evaluator ([check_if_pr],
      [check_running_pr]) are made on exact values: the rounding of the
      one-rep-max rating and of the pace, on the Python side and inside the
      queries, and the rounding of a [REAL] column to binary32 on insert,
      are not modelled, so a comparison of two such values that are within
      a rounding error of each other can come out differently in the
      running program.  The distance [reps / 10.0] is a [NUMERIC] value and
      its comparison with a Python float is exact.
    - [INTEGER] and [REAL] columns hold every value in the model; an insert
      or update that PostgreSQL refuses because a value is out of range is
      not modelled ([int4] and [is_single] are the hypotheses of the
      theorems that need the value to fit).
    - [CURRENT_TIMESTAMP] is read from a clock kept in the store. *)

From Stdlib Require Import ZArith QArith Qround Qabs Qpower List Sorted Bool String Ascii.
From Stdlib Require Import DecimalString Lia Lqa.
From Stdlib Require Import Permutation.
Import ListNotations.

Local Open Scope Z_scope.

(** ** Numbers as Python and SQL see them *)

Definition Qltb (x y : Q) : bool := negb (Qle_bool y x).

(** [int(x)] on a float: truncation toward zero. *)
Definition py_int (x : Q) : Z := Z.quot (Qnum x) (Zpos (Qden x)).

(** *** Binary floating point

    A finite float is a rational [m * 2^e] with [|m| < 2^prec] and
    [e >= emin].  [round_float] is the rounding every IEEE 754 operation
    ends with: the exact result is moved to the nearest such rational, to
    the one with an even [m] when two are equally near. *)

(** The binade of a positive rational: [2^k <= x < 2^(k+1)]. *)
Definition Qlog2 (x : Q) : Z :=
  let k := Z.log2 (Qnum x) - Z.log2 (Zpos (Qden x)) in
  if Qle_bool (2 ^ k) x then k else k - 1.

(** To the nearest integer, ties to even. *)
Definition rint (x : Q) : Z :=
  let f := Qfloor x in
  match (x - inject_Z f ?= 1 # 2)%Q with
  | Lt => f
  | Gt => f + 1
  | Eq => if Z.even f then f else f + 1
  end.

(** The exponent of the last place of [x]; [emin] for subnormals. *)
Definition float_exponent (prec emin : Z) (x : Q) : Z :=
  Z.max (Qlog2 (Qabs x) - (prec - 1)) emin.

Definition round_float (prec emin : Z) (x : Q) : Q :=
  if Qeq_bool x 0 then 0%Q
  else (inject_Z (rint (x / 2 ^ float_exponent prec emin x))
        * 2 ^ float_exponent prec emin x)%Q.

(** Python [float], PostgreSQL [double precision]. *)
Definition round_double : Q -> Q := round_float 53 (-1074).

(** PostgreSQL [REAL]. *)
Definition round_single : Q -> Q := round_float 24 (-149).

Definition ulp_exponent : Q -> Z := float_exponent 53 (-1074).

(** The finite values of the two formats. *)
Definition is_double (x : Q) : Prop :=
  (round_double x == x)%Q /\ (Qabs x < 2 ^ 1024)%Q.


(** The values of an [INTEGER] column. *)
Definition int4 (n : Z) : Prop := - 2 ^ 31 <= n < 2 ^ 31.

(** [x % 1] on a float: the result has the sign of the divisor.  [fmod] is
    exact; for a negative [x] with a non-zero remainder Python then adds
    [1.0] to the remainder, and that sum is rounded. *)
Definition py_mod1 (x : Q) : Q :=
  let m := (x - inject_Z (Qfloor x))%Q in
  if Qle_bool 0 x then m else round_double m.

(** Truthiness of a fetched numeric column: [None] and [0] are falsy. *)
Definition truthy (o : option Q) : bool :=
  match o with
  | Some x => negb (Qeq_bool x 0)
  | None => false
  end.

(** [v if result and v else dflt] for a one-row aggregate result. *)
Definition value_or (o : option Q) (dflt : Q) : Q :=
  match o with
  | Some x => if truthy o then x else dflt
  | None => dflt
  end.

(** SQL aggregates: [NULL] ([None]) over no rows. *)
Definition sql_agg {A : Type} (keep_new : A -> A -> bool) (l : list A) : option A :=
  fold_left
    (fun acc x =>
       match acc with
       | None => Some x
       | Some b => if keep_new b x then Some x else Some b
       end)
    l None.

Definition sql_max_int : list Z -> option Z := sql_agg (fun b x => b <? x).
Definition sql_max : list Q -> option Q := sql_agg (fun b x => Qltb b x).
Definition sql_min : list Q -> option Q := sql_agg (fun b x => Qltb x b).

Definition coalesce (o : option Z) (dflt : Z) : Z :=
  match o with
  | Some x => x
  | None => dflt
  end.

(** ** Exceptions *)

Inductive exn :=
| TypeError            (* Python: [dict(None)] *)
| ZeroDivisionError    (* Python: float division by zero *)
| DivisionByZero       (* PostgreSQL: division by zero inside a query *)
| IntegrityError       (* PostgreSQL: a foreign key names no row *)
| OperationalError     (* psycopg2: the connection or the commit failed *)
| NotFoundError.       (* named by the specification; no code path raises it *)

Inductive result (A : Type) :=
| Ok (a : A)
| Raise (e : exn).

Arguments Ok {A} a.
Arguments Raise {A} e.

(** ** Record store

    The schema of [init_database]; [sets.workout_id] and [sets.exercise_id],
    and [personal_records.exercise_id], are foreign keys.  A sequence value
    consumed by an insert that is then rolled back is not modelled: ids are
    only ever compared for equality. *)

Definition date := Z.

Record exercise := mkExercise {
  ex_id : Z;
  ex_name : string;
  ex_category : option string
}.

Record workout := mkWorkout {
  wk_id : Z;
  wk_date : date;
  wk_notes : option string
}.

Record set_row := mkSet {
  set_id : Z;
  set_workout_id : Z;
  set_exercise_id : Z;
  set_number : Z;
  set_reps : Z;
  set_weight : Q;
  set_created_at : Z
}.

Record pr_row := mkPR {
  pr_id : Z;
  pr_exercise_id : Z;
  pr_type : string;
  pr_value : Q;
  pr_achieved_date : date;
  pr_context : option string
}.

Record db := mkDb {
  exercises : list exercise;
  workouts : list workout;
  sets : list set_row;
  personal_records : list pr_row;
  next_set_id : Z;
  next_pr_id : Z;
  clock : Z
}.

Definition with_sets (d : db) (l : list set_row) (next : Z) : db :=
  mkDb (exercises d) (workouts d) l (personal_records d) next (next_pr_id d) (clock d).

Definition with_workouts_sets (d : db) (ws : list workout) (l : list set_row) : db :=
  mkDb (exercises d) ws l (personal_records d) (next_set_id d) (next_pr_id d) (clock d).

(** ** Sets *)

(** [WHERE workout_id = %s AND exercise_id = %s]. *)
Definition in_pair (workout_id exercise_id : Z) (s : set_row) : bool :=
  (set_workout_id s =? workout_id) && (set_exercise_id s =? exercise_id).

Definition pair_sets (d : db) (workout_id exercise_id : Z) : list set_row :=
  filter (in_pair workout_id exercise_id) (sets d).

(** [SELECT COALESCE(MAX(set_number), 0) + 1 ...]. *)
Definition next_set (d : db) (workout_id exercise_id : Z) : Z :=
  coalesce (sql_max_int (map set_number (pair_sets d workout_id exercise_id))) 0 + 1.

Definition has_workout (d : db) (workout_id : Z) : bool :=
  existsb (fun w => wk_id w =? workout_id) (workouts d).

Definition has_exercise (d : db) (exercise_id : Z) : bool :=
  existsb (fun e => ex_id e =? exercise_id) (exercises d).

Definition add_set (d : db) (workout_id exercise_id reps : Z) (weight : Q)
  : result (Z * db) :=
  let set_number := next_set d workout_id exercise_id in
  if has_workout d workout_id && has_exercise d exercise_id then
    let id := next_set_id d in
    Ok (id,
        with_sets d
          (sets d ++ [mkSet id workout_id exercise_id set_number reps weight (clock d)])
          (id + 1))
  else Raise IntegrityError.

Definition delete_set (d : db) (set_id' : Z) : db :=
  with_sets d (filter (fun s => negb (set_id s =? set_id')) (sets d)) (next_set_id d).

(** The row picked by [ORDER BY created_at DESC LIMIT 1] among the sets of
    the pair.  PostgreSQL leaves the choice among equal timestamps open;
    here the row inserted last wins. *)
Definition last_set (d : db) (workout_id exercise_id : Z) : option set_row :=
  sql_agg (fun b x => set_created_at b <=? set_created_at x)
          (pair_sets d workout_id exercise_id).

Definition put_set_number (n : Z) (s : set_row) : set_row :=
  mkSet (set_id s) (set_workout_id s) (set_exercise_id s) n
        (set_reps s) (set_weight s) (set_created_at s).

(** [UPDATE sets SET set_number = %s WHERE id = (subquery)]; an empty
    subquery compares [id] with [NULL] and no row is updated. *)
Definition update_last_set_hr (d : db) (workout_id exercise_id heart_rate : Z) : db :=
  match last_set d workout_id exercise_id with
  | None => d
  | Some l =>
      with_sets d
        (map (fun s => if set_id s =? set_id l then put_set_number heart_rate s else s)
             (sets d))
        (next_set_id d)
  end.

(** ** Workouts *)

Definition has_sets (d : db) (w : workout) : bool :=
  existsb (fun s => set_workout_id s =? wk_id w) (sets d).

Definition get_workout_by_id (d : db) (workout_id : Z) : option workout :=
  find (fun w => wk_id w =? workout_id) (workouts d).

(** [DELETE FROM workouts WHERE id = %s]; [ON DELETE CASCADE] removes the
    sets of every workout row that goes. *)
Definition delete_workout (d : db) (workout_id : Z) : db :=
  if has_workout d workout_id then
    with_workouts_sets d
      (filter (fun w => negb (wk_id w =? workout_id)) (workouts d))
      (filter (fun s => negb (set_workout_id s =? workout_id)) (sets d))
  else d.

(** ** PR evaluator *)

(** [FROM sets s JOIN workouts w ON s.workout_id = w.id
     WHERE s.exercise_id = %s AND w.workout_date < %s]. *)
Definition prior_sets (d : db) (exercise_id : Z) (workout_date : date) : list set_row :=
  flat_map
    (fun s =>
       map (fun _ => s)
           (filter (fun w => (set_workout_id s =? wk_id w) && (wk_date w <? workout_date))
                   (workouts d)))
    (filter (fun s => set_exercise_id s =? exercise_id) (sets d)).

Record pr_check := mkPrCheck {
  is_weight_pr : bool;
  previous_max : Q;
  is_1rm_pr : bool;
  previous_1rm : Q
}.

(** [weight * (1 + reps / 30.0)], as both the Python and the SQL side write it. *)
Definition epley (weight : Q) (reps : Z) : Q :=
  (weight * (1 + inject_Z reps / 30))%Q.

Definition check_if_pr (d : db) (exercise_id : Z) (weight : Q) (reps : Z)
           (workout_date : date) : pr_check :=
  let prior := prior_sets d exercise_id workout_date in
  let prev_max := value_or (sql_max (map set_weight prior)) 0 in
  let is_weight_pr := Qltb prev_max weight in
  let current_1rm := if 1 <? reps then epley weight reps else weight in
  let prev_1rm :=
    value_or (sql_max (map (fun s => epley (set_weight s) (set_reps s)) prior)) 0 in
  let is_1rm_pr := Qltb prev_1rm current_1rm in
  mkPrCheck is_weight_pr prev_max is_1rm_pr prev_1rm.

(** [calculate_estimated_1rm] of [app.py]. *)
Definition calculate_estimated_1rm (weight : Q) (reps : Z) : Q :=
  if reps =? 1 then weight else epley weight reps.

(** ** Running *)

Record run_check := mkRunCheck {
  is_pace_pr : bool;
  previous_best_pace : Q;
  is_distance_pr : bool;
  previous_max_distance : Q
}.

(** [s.reps / 10.0]. *)
Definition row_miles (s : set_row) : Q := (inject_Z (set_reps s) / 10)%Q.

(** [s.weight / (s.reps / 10.0)]. *)
Definition row_pace (s : set_row) : Q := (set_weight s / row_miles s)%Q.

Definition check_running_pr (d : db) (exercise_id : Z) (miles time_minutes : Q)
           (workout_date : date) : result run_check :=
  if Qeq_bool miles 0 then Raise ZeroDivisionError
  else
    let current_pace := (time_minutes / miles)%Q in
    let prior := prior_sets d exercise_id workout_date in
    if existsb (fun s => set_reps s =? 0) prior then Raise DivisionByZero
    else
      let prev_best_pace := value_or (sql_min (map row_pace prior)) 999 in
      let is_pace_pr := Qltb current_pace prev_best_pace in
      let prev_max_distance := value_or (sql_max (map row_miles prior)) 0 in
      let is_distance_pr := Qltb prev_max_distance miles in
      Ok (mkRunCheck is_pace_pr
                     (if Qeq_bool prev_best_pace 999 then 0 else prev_best_pace)
                     is_distance_pr
                     prev_max_distance).

(** ** Workout details *)

(** Stable insertion sort, for [ORDER BY]. *)
Fixpoint insert_by {A : Type} (key : A -> Z) (x : A) (l : list A) : list A :=
  match l with
  | [] => [x]
  | y :: tl => if key y <=? key x then y :: insert_by key x tl else x :: l
  end.

Definition order_by {A : Type} (key : A -> Z) (l : list A) : list A :=
  fold_left (fun acc x => insert_by key x acc) l [].

Record set_detail := mkSetDetail {
  sd_set : set_row;
  sd_exercise_name : string;
  sd_category : option string
}.

Record workout_details := mkWorkoutDetails {
  wd_workout : workout;
  wd_sets : list set_detail
}.

Definition get_workout_details (d : db) (workout_id : Z) : result workout_details :=
  match find (fun w => wk_id w =? workout_id) (workouts d) with
  | None => Raise TypeError
  | Some w =>
      Ok (mkWorkoutDetails w
            (order_by (fun r => set_created_at (sd_set r))
               (flat_map
                  (fun s =>
                     map (fun e => mkSetDetail s (ex_name e) (ex_category e))
                         (filter (fun e => set_exercise_id s =? ex_id e) (exercises d)))
                  (filter (fun s => set_workout_id s =? workout_id) (sets d)))))
  end.

(** ** Streak *)

(** Insertion into a strictly descending list: [DISTINCT ... ORDER BY ... DESC]. *)
Fixpoint insert_desc (x : date) (l : list date) : list date :=
  match l with
  | [] => [x]
  | y :: tl =>
      if y <? x then x :: l
      else if y =? x then l
      else y :: insert_desc x tl
  end.

Definition distinct_desc (l : list date) : list date :=
  fold_right insert_desc [] l.

(** [SELECT DISTINCT w.workout_date FROM workouts w WHERE EXISTS (...)
     ORDER BY w.workout_date DESC]. *)
Definition workout_dates (d : db) : list date :=
  distinct_desc (map wk_date (filter (has_sets d) (workouts d))).

(** The [for date in dates[1:]] loop. *)
Fixpoint count_consecutive (dates : list date) (expected_date : date) (streak : Z) : Z :=
  match dates with
  | [] => streak
  | date :: tl =>
      if date =? expected_date
      then count_consecutive tl (date - 1) (streak + 1)
      else streak
  end.

Definition get_workout_streak (d : db) (today : date) : Z :=
  match workout_dates d with
  | [] => 0
  | most_recent :: rest =>
      let yesterday := today - 1 in
      if negb (most_recent =? today) && negb (most_recent =? yesterday) then 0
      else count_consecutive rest (most_recent - 1) 1
  end.

(** [datetime.date(year, month, day).toordinal()]. *)
Definition is_leap (year : Z) : bool :=
  (year mod 4 =? 0) && (negb (year mod 100 =? 0) || (year mod 400 =? 0)).

Definition days_before_year (year : Z) : Z :=
  let y := year - 1 in y * 365 + y / 4 - y / 100 + y / 400.

Definition days_before_month (year month : Z) : Z :=
  nth (Z.to_nat month) [0; 0; 31; 59; 90; 120; 151; 181; 212; 243; 273; 304; 334] 0
  + (if (2 <? month) && is_leap year then 1 else 0).

Definition ymd (year month day : Z) : date :=
  days_before_year year + days_before_month year month + day.

(** ** Pace display *)

Definition str (n : Z) : string :=
  DecimalString.NilZero.string_of_int (Z.to_int n).

(** [f"{n:02d}"]. *)
Definition fmt_02d (n : Z) : string :=
  let s := str n in
  if (String.length s <? 2)%nat then String "0" s else s.

(** [f"{int(pace)}:{int((pace % 1) * 60):02d}"], for a float [pace]. *)
Definition format_pace (pace : Q) : string :=
  (str (py_int pace) ++ ":"
   ++ fmt_02d (py_int (round_double (py_mod1 pace * 60))))%string.

(** ** PR log *)

Definition log_pr (d : db) (exercise_id : Z) (pr_type : string) (value : Q)
           (achieved_date : date) (context : option string) : result db :=
  if has_exercise d exercise_id then
    Ok (mkDb (exercises d) (workouts d) (sets d)
             (personal_records d
              ++ [mkPR (next_pr_id d) exercise_id pr_type value achieved_date context])
             (next_set_id d) (next_pr_id d + 1) (clock d))
  else Raise IntegrityError.

(** ** Input validation ([utils.py]) *)

Definition validate_set_input (reps : Z) (weight : Q) : bool * string :=
  if reps <=? 0 then (false, "Reps must be positive"%string)
  else if Qltb weight 0 then (false, "Weight cannot be negative"%string)
  else if 100 <? reps then (false, "Reps seems too high (>100)"%string)
  else if Qltb 1000 weight then (false, "Weight seems too high (>1000)"%string)
  else (true, EmptyString).

(** ** Connections and the submit flows

    Every function of [database.py] runs its statements inside its own
    [with get_db() as conn:] block: connect, run, commit; on an exception
    roll back and re-raise.  A script run of [app.py] is a sequence of such
    blocks, and an exception that escapes one ends the run. *)

Record world := mkWorld {
  store : db;       (* what is committed *)
  opened : nat      (* connections opened so far in this run *)
}.

Definition M (A : Type) : Type := world -> result A * world.

Definition ret {A : Type} (a : A) : M A := fun w => (Ok a, w).

Definition bind {A B : Type} (c : M A) (k : A -> M B) : M B :=
  fun w =>
    match c w with
    | (Ok a, w') => k a w'
    | (Raise e, w') => (Raise e, w')
    end.

Notation "x <- c ;; k" := (bind c (fun x => k))
  (at level 61, c at next level, right associativity).

Section Session.

(** [link k]: whether the [k]-th connection of the run can be opened and
    committed. *)
Variable link : nat -> bool.

(** [f"{weight}"] for a float. *)
Variable float_repr : Q -> string.

Definition get_db {A : Type} (body : db -> result (A * db)) : M A :=
  fun w =>
    let after d := mkWorld d (S (opened w)) in
    if link (opened w) then
      match body (store w) with
      | Ok (a, d') => (Ok a, after d')
      | Raise e => (Raise e, after (store w))
      end
    else (Raise OperationalError, after (store w)).

Definition query {A : Type} (q : db -> result A) : M A :=
  get_db (fun d => match q d with Ok a => Ok (a, d) | Raise e => Raise e end).

Definition command (c : db -> db) : M unit :=
  get_db (fun d => Ok (tt, c d)).

Definition insert (c : db -> result db) : M unit :=
  get_db (fun d => match c d with Ok d' => Ok (tt, d') | Raise e => Raise e end).

Definition db_add_set (workout_id exercise_id reps : Z) (weight : Q) : M Z :=
  get_db (fun d => add_set d workout_id exercise_id reps weight).





Definition db_update_last_set_hr (workout_id exercise_id heart_rate : Z) : M unit :=
  command (fun d => update_last_set_hr d workout_id exercise_id heart_rate).

Definition db_check_if_pr (exercise_id : Z) (weight : Q) (reps : Z)
           (workout_date : date) : M pr_check :=
  query (fun d => Ok (check_if_pr d exercise_id weight reps workout_date)).

Definition db_check_running_pr (exercise_id : Z) (miles time_minutes : Q)
           (workout_date : date) : M run_check :=
  query (fun d => check_running_pr d exercise_id miles time_minutes workout_date).

Definition db_log_pr (exercise_id : Z) (pr_type : string) (value : Q)
           (achieved_date : date) (context : option string) : M unit :=
  insert (fun d => log_pr d exercise_id pr_type value achieved_date context).

Definition when (b : bool) (c : M unit) : M unit :=
  if b then c else ret tt.

(** The "Add Set" branch of the log page. *)
Definition submit_set (workout_id exercise_id reps : Z) (weight : Q)
           (today : date) : M unit :=
  let est_1rm := calculate_estimated_1rm weight reps in
  if negb (fst (validate_set_input reps weight)) then ret tt
  else
    _ <- db_add_set workout_id exercise_id reps weight ;;
    pr_check <- db_check_if_pr exercise_id weight reps today ;;
    _ <- when (is_weight_pr pr_check)
           (db_log_pr exercise_id "weight" weight today
                      (Some (str reps ++ " reps")%string)) ;;
    _ <- when (is_1rm_pr pr_check)
           (db_log_pr exercise_id "1rm" est_1rm today
                      (Some (float_repr weight ++ " lbs x " ++ str reps)%string)) ;;
    ret tt.

(** The "Add Run" branch of the log page. *)
Definition submit_run (workout_id exercise_id : Z) (miles time_minutes : Q)
           (heart_rate : Z) (today : date) : M unit :=
  if Qle_bool miles 0 then ret tt
  else if Qle_bool time_minutes 0 then ret tt
  else
    _ <- db_add_set workout_id exercise_id (py_int (round_double (miles * 10)))
                    time_minutes ;;
    _ <- db_update_last_set_hr workout_id exercise_id heart_rate ;;
    _ <- db_check_running_pr exercise_id miles time_minutes today ;;
    ret tt.

End Session.

(** A run in which every connection works. *)
Definition healthy : nat -> bool := fun _ => true.

(** A run whose [k]-th connection (counting from 0) fails. *)
Definition fails_at (k : nat) : nat -> bool := fun i => negb (Nat.eqb i k).

Definition begin (d : db) : world := mkWorld d 0.

(** ** Reference readings of the specification

    The definitions of this section are not code of the repository: they
    write out the specification's wording ([spec_...] and the propositions),
    and the vocabulary the theorems below are stated in. *)

(** [round(x)] of Python: to the nearest integer, ties to even. *)
Definition py_round (x : Q) : Z :=
  let f := Qfloor x in
  match (x - inject_Z f ?= 1 # 2)%Q with
  | Lt => f
  | Gt => f + 1
  | Eq => if Z.even f then f else f + 1
  end.

(** "M:SS where M = floor(p) and SS = round((p - floor(p)) * 60) zero-padded
    to two digits". *)
Definition spec_format_pace (p : Q) : string :=
  (str (Qfloor p) ++ ":" ++ fmt_02d (py_round ((p - inject_Z (Qfloor p)) * 60)))%string.

(** A set of the exercise logged in a workout dated strictly before [day]. *)
Definition prior (d : db) (exercise_id : Z) (day : date) (s : set_row) : Prop :=
  In s (sets d) /\ set_exercise_id s = exercise_id /\
  exists w, In w (workouts d) /\ wk_id w = set_workout_id s /\ wk_date w < day.

(** "estimated_1rm(weight, reps) exceeds the maximum of estimated_1rm(w, r)
    over all prior sets (defaulting to 0 with no history)", with
    [calculate_estimated_1rm] on both sides. *)
Definition spec_is_1rm_pr (d : db) (exercise_id : Z) (weight : Q) (reps : Z)
           (workout_date : date) : bool :=
  let prior_1rm :=
    map (fun s => calculate_estimated_1rm (set_weight s) (set_reps s))
        (prior_sets d exercise_id workout_date) in
  Qltb (match sql_max prior_1rm with Some m => m | None => 0 end)
       (calculate_estimated_1rm weight reps).


(** [x] is the date of a workout that has at least one set. *)
Definition active_day (d : db) (x : date) : Prop :=
  exists w s,
    In w (workouts d) /\ In s (sets d) /\ set_workout_id s = wk_id w /\ wk_date w = x.

(** Sequences of store operations on sets. *)
Inductive op :=
| AddSet (workout_id exercise_id reps : Z) (weight : Q)
| DeleteSet (set_id' : Z).

(** The store an insert leaves: the new one, or the old one when the insert
    raised and was rolled back. *)
Definition committed {A : Type} (d : db) (r : result (A * db)) : db :=
  match r with
  | Ok (_, d') => d'
  | Raise _ => d
  end.

Definition apply_op (o : op) (d : db) : db :=
  match o with
  | AddSet w e r wt => committed d (add_set d w e r wt)
  | DeleteSet i => delete_set d i
  end.

Definition run_ops (ops : list op) (d : db) : db :=
  fold_left (fun acc o => apply_op o acc) ops d.





(** The store a [log_pr] leaves, rolled back when it raised. *)
Definition logged (d : db) (r : result db) : db :=
  match r with
  | Ok d' => d'
  | Raise _ => d
  end.

(** "either the Set row and every PersonalRecord row corresponding to a true
    PR flag are all persisted, or none of them are": the store after the
    strength submit flow is the store it started from, or the store an
    undisturbed run reaches. *)
Definition submit_set_all_or_nothing : Prop :=
  forall link float_repr d workout_id exercise_id reps weight today,
    let final :=
      store (snd (submit_set link float_repr workout_id exercise_id reps weight today
                             (begin d))) in
    final = d \/
    final = store (snd (submit_set healthy float_repr workout_id exercise_id reps weight
                                   today (begin d))).

(** "the stored reps field equals round(miles*10)": the run flow leaves the
    [reps] column as it was, or adds one row holding [round(miles * 10)]. *)
Definition run_reps_rounded : Prop :=
  forall link d workout_id exercise_id miles time_minutes heart_rate today,
    (0 <= miles)%Q ->
    let final :=
      store (snd (submit_run link workout_id exercise_id miles time_minutes heart_rate
                             today (begin d))) in
    map set_reps (sets final) = map set_reps (sets d) \/
    map set_reps (sets final) = map set_reps (sets d) ++ [py_round (miles * 10)].

(** "the displayed pace string is M:SS where ... SS = round(...)". *)
Definition pace_seconds_rounded : Prop :=
  forall p, (0 < p)%Q -> format_pace p = spec_format_pace p.


(** ** Example stores *)

Definition jan (day : Z) : date := ymd 2024 1 day.

(** One strength exercise, one running exercise, a workout on each of the
    first three days of January 2024, no set yet. *)
Definition gym : db :=
  mkDb [mkExercise 1 "Bench Press" (Some "Upper Strength"%string);
        mkExercise 2 "Morning Run" (Some "Easy Run"%string)]
       [mkWorkout 1 (jan 1) None; mkWorkout 2 (jan 2) None; mkWorkout 3 (jan 3) None]
       [] [] 1 1 0.

(** A single at 300 on 1 January. *)
Definition gym_single : db := committed gym (add_set gym 1 1 1 300).

(** Ten reps at 135 on 1 January. *)
Definition gym_bench : db := committed gym (add_set gym 1 1 10 135).

(** One set on each of the three days. *)
Definition gym_three_days : db :=
  run_ops [AddSet 1 1 10 135; AddSet 2 1 10 135; AddSet 3 1 10 135] gym.


Definition float_repr0 : Q -> string := fun _ => "?"%string.

(** A three-mile run in thirty minutes, logged in the workout of 3 January. *)
Definition gym_run : db := committed gym (add_set gym 3 2 30 30).

(** ** More of [database.py] *)

(** [UPDATE workouts SET notes = %s WHERE id = %s]. *)
Definition update_workout_notes (d : db) (workout_id : Z) (notes : option string) : db :=
  with_workouts_sets d
    (map (fun w => if wk_id w =? workout_id
                   then mkWorkout (wk_id w) (wk_date w) notes
                   else w)
         (workouts d))
    (sets d).

(** [WHERE w.workout_date BETWEEN %s AND %s AND EXISTS (...)
     ORDER BY w.workout_date DESC]. *)
Definition get_workouts_by_date_range (d : db) (start_date end_date : date)
  : list workout :=
  order_by (fun w => - wk_date w)
    (filter (fun w => (start_date <=? wk_date w) && (wk_date w <=? end_date)
                      && has_sets d w)
            (workouts d)).

Definition get_exercise_by_name (d : db) (name : string) : option exercise :=
  find (fun e => String.eqb (ex_name e) name) (exercises d).

(** [SELECT MAX(w.workout_date) ... WHERE EXISTS (...)]; 999 when there is
    no workout with a set. *)
Definition get_days_since_last_workout (d : db) (today : date) : Z :=
  match sql_max_int (map wk_date (filter (has_sets d) (workouts d))) with
  | None => 999
  | Some last_date => today - last_date
  end.

(** The columns [get_last_workout_for_exercise] selects. *)
Record session_row := mkSessionRow {
  sr_workout_date : date;
  sr_set_number : Z;
  sr_reps : Z;
  sr_weight : Q
}.

Record last_session := mkLastSession {
  ls_date : date;
  ls_sets : list session_row
}.

(** [ORDER BY w.workout_date DESC, s.set_number LIMIT 10]; [before_date] is
    [None] when the caller passes no date. *)
Definition get_last_workout_for_exercise (d : db) (exercise_id : Z)
           (before_date : option date) : option last_session :=
  let joined :=
    flat_map
      (fun s =>
         map (fun w => mkSessionRow (wk_date w) (set_number s) (set_reps s) (set_weight s))
             (filter (fun w => (set_workout_id s =? wk_id w)
                               && match before_date with
                                  | Some b => wk_date w <? b
                                  | None => true
                                  end)
                     (workouts d)))
      (filter (fun s => set_exercise_id s =? exercise_id) (sets d)) in
  let rows :=
    firstn 10 (order_by (fun r => - sr_workout_date r) (order_by sr_set_number joined)) in
  match rows with
  | [] => None
  | first :: _ => Some (mkLastSession (sr_workout_date first) rows)
  end.

(** A row the query of [get_last_workout_for_exercise] ranges over. *)
Definition session_of (d : db) (exercise_id : Z) (before_date : option date)
           (row : session_row) : Prop :=
  exists s w,
    In s (sets d) /\ set_exercise_id s = exercise_id /\
    In w (workouts d) /\ wk_id w = set_workout_id s /\
    match before_date with
    | Some b => wk_date w < b
    | None => True
    end /\
    row = mkSessionRow (wk_date w) (set_number s) (set_reps s) (set_weight s).

(** ** Week summary *)

Definition running_categories : list string :=
  ["Easy Run"; "Tempo Run"; "Long Easy Run"]%string.

(** [e.category IN ('Easy Run', 'Tempo Run', 'Long Easy Run')]: [NULL] for a
    [NULL] category, and then neither [IN] nor [NOT IN] keeps the row. *)
Definition category_in_running (category : option string) : option bool :=
  option_map (fun c => existsb (String.eqb c) running_categories) category.

Definition is_running_row (e : exercise) : bool :=
  match category_in_running (ex_category e) with
  | Some b => b
  | None => false
  end.

Definition is_strength_row (e : exercise) : bool :=
  match category_in_running (ex_category e) with
  | Some b => negb b
  | None => false
  end.

(** [FROM sets s JOIN workouts w ON s.workout_id = w.id
     JOIN exercises e ON s.exercise_id = e.id
     WHERE w.workout_date BETWEEN %s AND %s]. *)
Definition week_rows (d : db) (start_date end_date : date) : list (set_row * exercise) :=
  flat_map
    (fun s =>
       flat_map
         (fun w =>
            map (fun e => (s, e))
                (filter (fun e => set_exercise_id s =? ex_id e) (exercises d)))
         (filter (fun w => (set_workout_id s =? wk_id w)
                           && (start_date <=? wk_date w) && (wk_date w <=? end_date))
                 (workouts d)))
    (sets d).

(** [SUM]: [NULL] over no rows. *)
Definition sql_sum (l : list Q) : option Q :=
  match l with
  | [] => None
  | _ => Some (fold_left Qplus l 0%Q)
  end.

Definition coalesce_q (o : option Q) (dflt : Q) : Q :=
  match o with
  | Some x => x
  | None => dflt
  end.

Record week_summary := mkWeekSummary {
  total_volume : Q;
  total_miles : Q;
  num_workouts : Z
}.

Definition get_week_summary (d : db) (start_date end_date : date) : week_summary :=
  let rows := week_rows d start_date end_date in
  let total_volume :=
    coalesce_q
      (sql_sum (map (fun r => (inject_Z (set_reps (fst r)) * set_weight (fst r))%Q)
                    (filter (fun r => is_strength_row (snd r)) rows))) 0 in
  let total_miles :=
    coalesce_q
      (sql_sum (map (fun r => row_miles (fst r))
                    (filter (fun r => is_running_row (snd r)) rows))) 0 in
  let num_workouts :=
    Z.of_nat
      (List.length
         (nodup Z.eq_dec
            (map wk_id
               (filter (fun w => (start_date <=? wk_date w) && (wk_date w <=? end_date)
                                 && has_sets d w)
                       (workouts d))))) in
  mkWeekSummary total_volume total_miles num_workouts.

(** ** PR log queries *)

Record pr_history_row := mkPrHistoryRow {
  ph_type : string;
  ph_value : Q;
  ph_achieved_date : date;
  ph_context : option string
}.

(** [SELECT pr_type, value, achieved_date, context ... WHERE exercise_id = %s
     ORDER BY achieved_date ASC]. *)
Definition get_pr_history (d : db) (exercise_id : Z) : list pr_history_row :=
  order_by ph_achieved_date
    (map (fun r => mkPrHistoryRow (pr_type r) (pr_value r) (pr_achieved_date r) (pr_context r))
         (filter (fun r => pr_exercise_id r =? exercise_id) (personal_records d))).

(** [SELECT pr.*, e.name ... JOIN exercises e ... WHERE pr.achieved_date >= %s
     ORDER BY pr.achieved_date DESC], the cutoff being [days] days before
     today. *)
Definition get_recent_prs (d : db) (today : date) (days : Z) : list (pr_row * string) :=
  let cutoff_date := today - days in
  order_by (fun r => - pr_achieved_date (fst r))
    (flat_map
       (fun r =>
          map (fun e => (r, ex_name e))
              (filter (fun e => pr_exercise_id r =? ex_id e) (exercises d)))
       (filter (fun r => cutoff_date <=? pr_achieved_date r) (personal_records d))).

(** ** Sequences of the other tables

    [exercises.id] and [workouts.id] are [SERIAL] too; their sequences are
    kept beside the tables. *)

Record server := mkServer {
  tables : db;
  exercises_id_seq : Z;
  workouts_id_seq : Z
}.

Definition create_workout (s : server) (workout_date : date) (notes : option string)
  : Z * server :=
  let d := tables s in
  let id := workouts_id_seq s in
  (id,
   mkServer (with_workouts_sets d (workouts d ++ [mkWorkout id workout_date notes]) (sets d))
            (exercises_id_seq s) (id + 1)).

Definition get_or_create_todays_workout (s : server) (today : date) : Z * server :=
  match find (fun w => wk_date w =? today) (workouts (tables s)) with
  | Some row => (wk_id row, s)
  | None => create_workout s today None
  end.

Inductive notice := EnterName | AlreadyExists | Added.

Section Names.

(** [str.strip()]. *)
Variable strip : string -> string.

(** [INSERT INTO exercises (name, category) VALUES (name.strip(), category)];
    [name] is [UNIQUE]. *)
Definition add_exercise (s : server) (name : string) (category : option string)
  : result (Z * server) :=
  let d := tables s in
  if existsb (fun e => String.eqb (ex_name e) (strip name)) (exercises d)
  then Raise IntegrityError
  else
    let id := exercises_id_seq s in
    Ok (id,
        mkServer (mkDb (exercises d ++ [mkExercise id (strip name) category])
                       (workouts d) (sets d) (personal_records d)
                       (next_set_id d) (next_pr_id d) (clock d))
                 (id + 1) (workouts_id_seq s)).

(** The "Add Exercise" form of the manage page. *)
Definition submit_exercise (s : server) (new_exercise_name : string)
           (new_category : string) : result (notice * server) :=
  if String.eqb new_exercise_name EmptyString then Ok (EnterName, s)
  else
    match get_exercise_by_name (tables s) new_exercise_name with
    | Some _ => Ok (AlreadyExists, s)
    | None =>
        match add_exercise s new_exercise_name (Some new_category) with
        | Ok (_, s') => Ok (Added, s')
        | Raise e => Raise e
        end
    end.

End Names.

(** ** Dashboard weeks ([app.py]) *)

(** [date.weekday()]: Monday is 0. *)
Definition weekday (day : date) : Z := (day + 6) mod 7.

Definition start_of_week (today : date) : date := today - weekday today.
Definition end_of_week (today : date) : date := start_of_week today + 6.
Definition start_of_last_week (today : date) : date := start_of_week today - 7.
Definition end_of_last_week (today : date) : date := start_of_week today - 1.

(** [utils.get_date_range]. *)
Definition get_date_range (today : date) (days_back : Z) : date * date :=
  (today - days_back, today).

(** ** Store commands as data *)

Inductive action :=
| DoAddSet (workout_id exercise_id reps : Z) (weight : Q)
| DoDeleteSet (set_id' : Z)
| DoDeleteWorkout (workout_id : Z)
| DoUpdateLastSetHr (workout_id exercise_id heart_rate : Z)
| DoUpdateWorkoutNotes (workout_id : Z) (notes : option string)
| DoLogPr (exercise_id : Z) (pr_type : string) (value : Q) (achieved_date : date)
          (context : option string).

Definition perform (a : action) (d : db) : db :=
  match a with
  | DoAddSet w e r wt => committed d (add_set d w e r wt)
  | DoDeleteSet i => delete_set d i
  | DoDeleteWorkout w => delete_workout d w
  | DoUpdateLastSetHr w e hr => update_last_set_hr d w e hr
  | DoUpdateWorkoutNotes w n => update_workout_notes d w n
  | DoLogPr e t v day c => logged d (log_pr d e t v day c)
  end.

Definition perform_all (acts : list action) (d : db) : db :=
  fold_left (fun acc a => perform a acc) acts d.

(** Every set names a workout and an exercise that exist, and so does every
    logged PR. *)
Definition referential_integrity (d : db) : Prop :=
  (forall s, In s (sets d) ->
     has_workout d (set_workout_id s) = true /\ has_exercise d (set_exercise_id s) = true) /\
  (forall r, In r (personal_records d) -> has_exercise d (pr_exercise_id r) = true).

(** Set ids were all handed out by the sequence, once each. *)
Definition set_ids_fresh (d : db) : Prop :=
  NoDup (map set_id (sets d)) /\ forall s, In s (sets d) -> set_id s < next_set_id d.


(** ** More example stores *)

Definition gym_server : server := mkServer gym 3 4.



(** Trailing spaces only; stands in for [str.strip()] in examples. *)
Fixpoint drop_spaces (s : string) : string :=
  match s with
  | EmptyString => EmptyString
  | String c tl =>
      match drop_spaces tl with
      | EmptyString => if Ascii.eqb c " " then EmptyString else String c EmptyString
      | tl' => String c tl'
      end
  end.

(** * Properties *)

(** ** Aggregates *)

Lemma Qltb_lt (x y : Q) : Qltb x y = true <-> (x < y)%Q.
Proof.
  unfold Qltb. rewrite negb_true_iff. split; intro H.
  - apply Qnot_le_lt. intro Hle. apply Qle_bool_iff in Hle. congruence.
  - destruct (Qle_bool y x) eqn:E; [|reflexivity].
    apply Qle_bool_iff in E. exfalso. exact (Qlt_not_le _ _ H E).
Qed.

Lemma Qltb_ge (x y : Q) : Qltb x y = false <-> (y <= x)%Q.
Proof.
  unfold Qltb. rewrite negb_false_iff. apply Qle_bool_iff.
Qed.

Lemma sql_agg_cons {A : Type} (keep : A -> A -> bool) (x : A) (l : list A) :
  sql_agg keep (x :: l) = Some (fold_left (fun b y => if keep b y then y else b) l x).
Proof.
  unfold sql_agg. simpl. revert x.
  induction l as [|y l IH]; intro x; simpl; [reflexivity|].
  destruct (keep x y); apply IH.
Qed.

Lemma sql_agg_none {A : Type} (keep : A -> A -> bool) (l : list A) :
  sql_agg keep l = None <-> l = [].
Proof.
  destruct l as [|x l].
  - split; reflexivity.
  - rewrite sql_agg_cons. split; discriminate.
Qed.

Section Extremum.

Context {A : Type} (keep : A -> A -> bool) (R : A -> A -> Prop).
Hypothesis R_refl : forall x, R x x.
Hypothesis R_trans : forall x y z, R x y -> R y z -> R x z.
Hypothesis keep_true : forall b x, keep b x = true -> R b x.
Hypothesis keep_false : forall b x, keep b x = false -> R x b.

Lemma fold_pick_extremum (l : list A) (x : A) :
  let m := fold_left (fun b y => if keep b y then y else b) l x in
  In m (x :: l) /\ forall y, In y (x :: l) -> R y m.
Proof.
  revert x. induction l as [|a l IH]; intro x; simpl.
  - split; [now left|]. intros y [<-|[]]. apply R_refl.
  - destruct (keep x a) eqn:E.
    + destruct (IH a) as [Hin Hall]. simpl in Hin, Hall. split.
      * destruct Hin as [<-|Hin]; auto.
      * intros y [<-|[<-|Hy]]; auto.
        apply R_trans with a; auto.
    + destruct (IH x) as [Hin Hall]. simpl in Hin, Hall. split.
      * destruct Hin as [<-|Hin]; auto.
      * intros y [<-|[<-|Hy]]; auto.
        apply R_trans with x; auto.
Qed.

Lemma sql_agg_extremum (l : list A) (m : A) :
  sql_agg keep l = Some m -> In m l /\ forall y, In y l -> R y m.
Proof.
  destruct l as [|x l]; [discriminate|].
  rewrite sql_agg_cons. intro H. injection H as <-.
  apply fold_pick_extremum.
Qed.

End Extremum.

Lemma sql_max_spec (l : list Q) (m : Q) :
  sql_max l = Some m -> In m l /\ forall y, In y l -> (y <= m)%Q.
Proof.
  apply sql_agg_extremum.
  - apply Qle_refl.
  - apply Qle_trans.
  - intros b x H. apply Qltb_lt in H. now apply Qlt_le_weak.
  - intros b x H. now apply Qltb_ge in H.
Qed.

Lemma sql_min_spec (l : list Q) (m : Q) :
  sql_min l = Some m -> In m l /\ forall y, In y l -> (m <= y)%Q.
Proof.
  apply (sql_agg_extremum _ (fun a b => (b <= a)%Q)).
  - apply Qle_refl.
  - intros x y z H1 H2. now apply Qle_trans with y.
  - intros b x H. apply Qltb_lt in H. now apply Qlt_le_weak.
  - intros b x H. now apply Qltb_ge in H.
Qed.

Lemma sql_max_int_spec (l : list Z) (m : Z) :
  sql_max_int l = Some m -> In m l /\ forall y, In y l -> y <= m.
Proof.
  apply sql_agg_extremum.
  - apply Z.le_refl.
  - apply Z.le_trans.
  - intros b x H. apply Z.ltb_lt in H. lia.
  - intros b x H. apply Z.ltb_ge in H. lia.
Qed.

Lemma value_or_some (m dflt : Q) :
  (dflt == 0)%Q -> (value_or (Some m) dflt == m)%Q.
Proof.
  intro Hd. unfold value_or, truthy.
  destruct (Qeq_bool m 0) eqn:E; simpl.
  - apply Qeq_bool_iff in E. rewrite E. exact Hd.
  - reflexivity.
Qed.

Lemma Qltb_compat (x x' y y' : Q) :
  (x == x')%Q -> (y == y')%Q -> Qltb x y = Qltb x' y'.
Proof.
  intros Hx Hy. unfold Qltb. now rewrite Hx, Hy.
Qed.

(** ** History used by the PR evaluator *)

Lemma prior_sets_In (d : db) (exercise_id : Z) (day : date) (s : set_row) :
  In s (prior_sets d exercise_id day) <-> prior d exercise_id day s.
Proof.
  unfold prior_sets, prior. rewrite in_flat_map. split.
  - intros (s' & Hs' & Hin).
    apply filter_In in Hs'. destruct Hs' as [Hs' He].
    apply in_map_iff in Hin. destruct Hin as (w & <- & Hw).
    apply filter_In in Hw. destruct Hw as [Hw Hc].
    apply andb_true_iff in Hc. destruct Hc as [Hid Hlt].
    apply Z.eqb_eq in He, Hid. apply Z.ltb_lt in Hlt.
    split; [assumption|]. split; [assumption|].
    exists w. repeat split; auto.
  - intros (Hs & He & w & Hw & Hid & Hlt).
    exists s. split.
    + apply filter_In. split; [assumption|]. now apply Z.eqb_eq.
    + apply in_map_iff. exists w. split; [reflexivity|].
      apply filter_In. split; [assumption|].
      apply andb_true_iff. split; [apply Z.eqb_eq; auto | now apply Z.ltb_lt].
Qed.

Lemma prior_sets_nil (d : db) (exercise_id : Z) (day : date) :
  prior_sets d exercise_id day = [] <-> forall s, ~ prior d exercise_id day s.
Proof.
  split.
  - intros H s Hs. apply prior_sets_In in Hs. rewrite H in Hs. exact Hs.
  - intro H. destruct (prior_sets d exercise_id day) as [|s l] eqn:E; [reflexivity|].
    exfalso. apply (H s). apply prior_sets_In. rewrite E. now left.
Qed.

(** ** Strength PRs *)

Lemma prev_max_is_max (l : list Q) (m : Q) (x : Q) :
  sql_max l = Some m ->
  (Qltb (value_or (sql_max l) 0) x = true <-> forall y, In y l -> (y < x)%Q).
Proof.
  intro Hm. rewrite Hm.
  rewrite (Qltb_compat _ m x x (value_or_some m 0 (Qeq_refl 0)) (Qeq_refl x)).
  rewrite Qltb_lt.
  destruct (sql_max_spec l m Hm) as [Hin Hall].
  split.
  - intros Hlt y Hy. apply Qle_lt_trans with m; auto.
  - intros H. now apply H.
Qed.

(** C5. [check_if_pr] sets [is_weight_pr] exactly when the candidate weight is
    strictly greater than the weight of every prior set of the exercise (sets
    of workouts dated strictly before the candidate date), the bar being 0
    when there is no prior set: a weight equal to the best prior weight is
    not a PR, a weight above it is, and a first-ever set with positive weight
    is. *)
Theorem check_if_pr_weight_iff (d : db) (exercise_id : Z) (weight : Q) (reps : Z)
        (workout_date : date) :
  (is_weight_pr (check_if_pr d exercise_id weight reps workout_date) = true <->
   ((forall s, ~ prior d exercise_id workout_date s) /\ (0 < weight)%Q) \/
   ((exists s, prior d exercise_id workout_date s) /\
    forall s, prior d exercise_id workout_date s -> (set_weight s < weight)%Q))
  /\
  (forall best,
     prior d exercise_id workout_date best ->
     (forall s, prior d exercise_id workout_date s -> (set_weight s <= set_weight best)%Q) ->
     ((weight == set_weight best)%Q ->
      is_weight_pr (check_if_pr d exercise_id weight reps workout_date) = false) /\
     ((set_weight best < weight)%Q ->
      is_weight_pr (check_if_pr d exercise_id weight reps workout_date) = true)).
Proof.
  assert (Hiff :
    is_weight_pr (check_if_pr d exercise_id weight reps workout_date) = true <->
    ((forall s, ~ prior d exercise_id workout_date s) /\ (0 < weight)%Q) \/
    ((exists s, prior d exercise_id workout_date s) /\
     forall s, prior d exercise_id workout_date s -> (set_weight s < weight)%Q)).
  { unfold check_if_pr; cbn [is_weight_pr].
    destruct (prior_sets d exercise_id workout_date) as [|s0 l] eqn:E.
    - simpl. rewrite Qltb_lt.
      pose proof (proj1 (prior_sets_nil _ _ _) E) as Hno. split.
      + intro H. left. split; assumption.
      + intros [[_ H]|[[s Hs] _]]; [assumption|]. exfalso. exact (Hno s Hs).
    - assert (Hsome : exists m, sql_max (map set_weight (s0 :: l)) = Some m).
      { simpl map. unfold sql_max. rewrite sql_agg_cons. eauto. }
      destruct Hsome as [m Hm].
      rewrite (prev_max_is_max _ m weight Hm).
      assert (Hmem : forall s, prior d exercise_id workout_date s <-> In s (s0 :: l)).
      { intro s. rewrite <- E. symmetry. apply prior_sets_In. }
      split.
      + intro H. right. split.
        * exists s0. apply Hmem. now left.
        * intros s Hs. apply H. apply in_map. now apply Hmem.
      + intros [[Hno _]|[_ H]].
        * exfalso. apply (Hno s0). apply Hmem. now left.
        * intros y Hy. apply in_map_iff in Hy. destruct Hy as (s & <- & Hs).
          apply H. now apply Hmem. }
  split; [exact Hiff|].
  intros best Hbest Hmax. split.
  - intro Heq.
    apply not_true_is_false. intro E.
    apply Hiff in E. destruct E as [[Hno _]|[_ H]].
    + exact (Hno best Hbest).
    + specialize (H best Hbest). rewrite Heq in H. exact (Qlt_irrefl _ H).
  - intro Hlt. apply Hiff. right. split; [now exists best|].
    intros s Hs. apply Qle_lt_trans with (set_weight best); auto.
Qed.

(** C2. With a single at 300 in the history, a single at 305 on a later day
    exceeds every prior [calculate_estimated_1rm] (305 > 300), yet
    [check_if_pr] answers [is_1rm_pr = false]: its query rates the prior
    single with the multi-rep formula, 300 * (1 + 1/30) = 310. *)
Theorem check_if_pr_1rm_single_in_history :
  is_1rm_pr (check_if_pr gym_single 1 305 1 (jan 2)) = false /\
  (previous_1rm (check_if_pr gym_single 1 305 1 (jan 2)) == 310)%Q /\
  spec_is_1rm_pr gym_single 1 305 1 (jan 2) = true.
Proof.
  vm_compute. repeat split.
Qed.

(** ** Running PRs *)




(** ** Set numbering *)

Lemma sql_max_int_eq (l : list Z) (x : Z) :
  In x l -> (forall y, In y l -> y <= x) -> sql_max_int l = Some x.
Proof.
  intros Hin Hall.
  destruct (sql_max_int l) as [m|] eqn:E.
  - destruct (sql_max_int_spec l m E) as [Hm Hle].
    f_equal. apply Z.le_antisymm; auto.
  - apply sql_agg_none in E. subst l. destruct Hin.
Qed.


Lemma add_set_ok (d : db) (workout_id exercise_id reps : Z) (weight : Q)
      (id : Z) (d' : db) :
  add_set d workout_id exercise_id reps weight = Ok (id, d') ->
  id = next_set_id d /\
  d' = with_sets d
         (sets d ++ [mkSet id workout_id exercise_id
                           (next_set d workout_id exercise_id) reps weight (clock d)])
         (id + 1).
Proof.
  unfold add_set.
  destruct (has_workout d workout_id && has_exercise d exercise_id); [|discriminate].
  intro H. injection H as <- <-. split; reflexivity.
Qed.

Lemma NoDup_snoc {A : Type} (l : list A) (x : A) :
  NoDup l -> ~ In x l -> NoDup (l ++ [x]).
Proof.
  induction l as [|a l IH]; intros Hnd Hx; simpl.
  - constructor; [intros []|constructor].
  - inversion Hnd as [|? ? Ha Hl]; subst. constructor.
    + rewrite in_app_iff. intros [H|[H|[]]]; [now apply Ha|].
      apply Hx. now left.
    + apply IH; [assumption|]. intro H. apply Hx. now right.
Qed.

Lemma NoDup_map_filter {Row Key : Type} (keep : Row -> bool) (key : Row -> Key) :
  forall rows, NoDup (map key rows) -> NoDup (map key (filter keep rows)).
Proof.
  intro rows. induction rows as [|r rows IH]; simpl; intro H; [constructor|].
  inversion H as [|? ? Hr Hrows]; subst.
  destruct (keep r); simpl; [|now apply IH].
  constructor; [|now apply IH].
  intro Hin. apply Hr. apply in_map_iff in Hin. destruct Hin as (x & Hx & Hin).
  apply filter_In in Hin. apply in_map_iff. exists x. tauto.
Qed.








(** ** Heart rate stored in [set_number] *)





(** ** Streak *)

Lemma insert_desc_In (x y : date) (l : list date) :
  In y (insert_desc x l) <-> y = x \/ In y l.
Proof.
  induction l as [|a l IH]; simpl.
  - intuition.
  - destruct (a <? x) eqn:E1; [simpl; intuition|].
    destruct (a =? x) eqn:E2.
    + apply Z.eqb_eq in E2. subst a. simpl. intuition.
    + simpl. rewrite IH. intuition.
Qed.

Lemma insert_desc_sorted (x : date) (l : list date) :
  StronglySorted Z.gt l -> StronglySorted Z.gt (insert_desc x l).
Proof.
  induction l as [|a l IH]; simpl; intro Hs.
  - constructor; constructor.
  - apply StronglySorted_inv in Hs. destruct Hs as [Hs Ha].
    destruct (a <? x) eqn:E1.
    + apply Z.ltb_lt in E1. constructor.
      * constructor; assumption.
      * constructor; [lia|].
        rewrite Forall_forall in *. intros y Hy. specialize (Ha y Hy). lia.
    + destruct (a =? x) eqn:E2.
      * constructor; assumption.
      * apply Z.ltb_ge in E1. apply Z.eqb_neq in E2. constructor; [now apply IH|].
        rewrite Forall_forall in *. intros y Hy.
        apply insert_desc_In in Hy. destruct Hy as [->|Hy]; [lia|now apply Ha].
Qed.

Lemma distinct_desc_In (x : date) (l : list date) :
  In x (distinct_desc l) <-> In x l.
Proof.
  induction l as [|a l IH]; simpl; [tauto|].
  rewrite insert_desc_In, IH. intuition.
Qed.

Lemma distinct_desc_sorted (l : list date) : StronglySorted Z.gt (distinct_desc l).
Proof.
  induction l as [|a l IH]; simpl; [constructor|].
  now apply insert_desc_sorted.
Qed.

Lemma workout_dates_In (d : db) (x : date) :
  In x (workout_dates d) <-> active_day d x.
Proof.
  unfold workout_dates, active_day. rewrite distinct_desc_In, in_map_iff. split.
  - intros (w & Hx & Hw). apply filter_In in Hw. destruct Hw as [Hw Hs].
    apply existsb_exists in Hs. destruct Hs as (s & Hs & Hid).
    apply Z.eqb_eq in Hid. exists w, s. auto.
  - intros (w & s & Hw & Hs & Hid & Hx). exists w. split; [assumption|].
    apply filter_In. split; [assumption|].
    apply existsb_exists. exists s. split; [assumption|]. now apply Z.eqb_eq.
Qed.

Lemma count_consecutive_spec (rest : list date) :
  forall expected streak,
    StronglySorted Z.gt rest ->
    (forall x, In x rest -> x <= expected) ->
    let k := count_consecutive rest expected streak in
    streak <= k /\
    (forall i, 0 <= i < k - streak -> In (expected - i) rest) /\
    ~ In (expected - (k - streak)) rest.
Proof.
  induction rest as [|a tl IH]; intros e acc Hs Hle; simpl.
  - repeat split; [lia | intros i Hi; lia | intros []].
  - apply StronglySorted_inv in Hs. destruct Hs as [Hs Ha].
    rewrite Forall_forall in Ha.
    destruct (a =? e) eqn:E.
    + apply Z.eqb_eq in E. subst a.
      destruct (IH (e - 1) (acc + 1) Hs) as (Hk & Hin & Hout).
      { intros x Hx. specialize (Ha x Hx). lia. }
      set (k := count_consecutive tl (e - 1) (acc + 1)) in *.
      repeat split.
      * lia.
      * intros i Hi. destruct (Z.eq_dec i 0) as [->|Hne].
        -- left. lia.
        -- right. replace (e - i) with (e - 1 - (i - 1)) by lia.
           apply Hin. lia.
      * intros [Heq|Hin']; [lia|].
        apply Hout. replace (e - 1 - (k - (acc + 1))) with (e - (k - acc)) by lia.
        exact Hin'.
    + apply Z.eqb_neq in E.
      assert (Hae : a < e) by (specialize (Hle a (or_introl eq_refl)); lia).
      repeat split.
      * lia.
      * intros i Hi. lia.
      * replace (e - (acc - acc)) with e by lia.
        intros [Heq|Hin']; [lia|]. specialize (Ha e Hin'). lia.
Qed.

(** C6. [get_workout_streak] is 0 when no workout has a set, and 0 when the
    most recent date [m] with a non-empty workout is neither today nor
    yesterday; otherwise it is the number [k >= 1] of consecutive days
    [m, m-1, ..., m-k+1] that all have a non-empty workout, the day [m-k]
    having none.  With non-empty workouts exactly on 2024-01-01, 2024-01-02
    and 2024-01-03 it is 3 when today is 2024-01-03 and 0 when today is
    2024-01-05. *)
Theorem get_workout_streak_counts_back :
  (forall d today,
     ((forall x, ~ active_day d x) -> get_workout_streak d today = 0) /\
     (forall m,
        active_day d m -> (forall x, active_day d x -> x <= m) ->
        (m <> today /\ m <> today - 1 -> get_workout_streak d today = 0) /\
        (m = today \/ m = today - 1 ->
         let k := get_workout_streak d today in
         1 <= k /\
         (forall i, 0 <= i < k -> active_day d (m - i)) /\
         ~ active_day d (m - k)))) /\
  (forall d,
     (forall x, active_day d x <-> x = jan 1 \/ x = jan 2 \/ x = jan 3) ->
     get_workout_streak d (jan 3) = 3 /\ get_workout_streak d (jan 5) = 0).
Proof.
  assert (General : forall d today,
     ((forall x, ~ active_day d x) -> get_workout_streak d today = 0) /\
     (forall m,
        active_day d m -> (forall x, active_day d x -> x <= m) ->
        (m <> today /\ m <> today - 1 -> get_workout_streak d today = 0) /\
        (m = today \/ m = today - 1 ->
         let k := get_workout_streak d today in
         1 <= k /\
         (forall i, 0 <= i < k -> active_day d (m - i)) /\
         ~ active_day d (m - k)))).
  { intros d today.
    pose proof (workout_dates_In d) as HIn.
    pose proof (distinct_desc_sorted (map wk_date (filter (has_sets d) (workouts d))))
      as Hsorted.
    fold (workout_dates d) in Hsorted.
    unfold get_workout_streak.
    destruct (workout_dates d) as [|m0 rest].
    - split; [reflexivity|].
      intros m Hm. apply HIn in Hm. destruct Hm.
    - split.
      { intro Hno. exfalso. apply (Hno m0). apply HIn. now left. }
      intros m Hm Hmax.
      apply StronglySorted_inv in Hsorted. destruct Hsorted as [Hrest Hhead].
      rewrite Forall_forall in Hhead.
      assert (m = m0) as ->.
      { assert (m0 <= m) by (apply Hmax, HIn; now left).
        apply HIn in Hm. destruct Hm as [Hm|Hm]; [lia|].
        specialize (Hhead m Hm). lia. }
      split.
      + intros [H1 H2].
        apply Z.eqb_neq in H1, H2. now rewrite H1, H2.
      + intros Hrecent.
        assert (Hcond : negb (m0 =? today) && negb (m0 =? today - 1) = false).
        { destruct Hrecent as [->| ->]; rewrite Z.eqb_refl; simpl;
            [reflexivity | apply andb_false_r]. }
        rewrite Hcond.
        destruct (count_consecutive_spec rest (m0 - 1) 1 Hrest) as (Hk & Hin & Hout).
        { intros x Hx. specialize (Hhead x Hx). lia. }
        set (k := count_consecutive rest (m0 - 1) 1) in *.
        cbv zeta. repeat split.
        * exact Hk.
        * intros i Hi. apply HIn. destruct (Z.eq_dec i 0) as [->|Hne].
          -- left. lia.
          -- right. replace (m0 - i) with (m0 - 1 - (i - 1)) by lia.
             apply Hin. lia.
        * intro Hact. apply HIn in Hact. destruct Hact as [Heq|Hact]; [lia|].
          apply Hout. replace (m0 - 1 - (k - 1)) with (m0 - k) by lia.
          exact Hact. }
  split; [exact General|].
  intros d Hdays.
  assert (Hmax : forall x, active_day d x -> x <= jan 3).
  { intros x Hx. apply Hdays in Hx. unfold jan, ymd in *. vm_compute in Hx |- *.
    destruct Hx as [->|[->| ->]]; discriminate. }
  assert (H3 : active_day d (jan 3)) by (apply Hdays; auto).
  split.
  - destruct (General d (jan 3)) as [_ H].
    destruct (H (jan 3) H3 Hmax) as [_ Hk].
    specialize (Hk (or_introl eq_refl)). cbv zeta in Hk.
    destruct Hk as (Hk1 & Hin & Hout).
    set (k := get_workout_streak d (jan 3)) in *.
    assert (Hk3 : k <= 3).
    { destruct (Z_le_gt_dec k 3) as [|Hgt]; [assumption|].
      assert (Hbad : active_day d (jan 3 - 3)) by (apply Hin; lia).
      apply Hdays in Hbad. vm_compute in Hbad.
      destruct Hbad as [Hb|[Hb|Hb]]; discriminate Hb. }
    assert (k = 1 \/ k = 2 \/ k = 3) as [Hk|[Hk|Hk]] by lia.
    + exfalso. apply Hout. rewrite Hk. apply Hdays. right. left. reflexivity.
    + exfalso. apply Hout. rewrite Hk. apply Hdays. left. reflexivity.
    + exact Hk.
  - destruct (General d (jan 5)) as [_ H].
    destruct (H (jan 3) H3 Hmax) as [Hzero _].
    apply Hzero. split; vm_compute; discriminate.
Qed.

Lemma gym_three_days_active (x : date) :
  active_day gym_three_days x <-> x = jan 1 \/ x = jan 2 \/ x = jan 3.
Proof.
  split.
  - intros (w & s & Hw & _ & _ & <-).
    destruct Hw as [<-|[<-|[<-|[]]]]; simpl; auto.
  - intros [->|[->| ->]].
    + exists (mkWorkout 1 (jan 1) None), (mkSet 1 1 1 1 10 135 0).
      repeat split; vm_compute; auto.
    + exists (mkWorkout 2 (jan 2) None), (mkSet 2 2 1 1 10 135 0).
      repeat split; vm_compute; auto.
    + exists (mkWorkout 3 (jan 3) None), (mkSet 3 3 1 1 10 135 0).
      repeat split; vm_compute; auto.
Qed.

Lemma get_workout_streak_counts_back_witness :
  get_workout_streak gym_three_days (jan 3) = 3 /\
  get_workout_streak gym_three_days (jan 5) = 0.
Proof.
  exact (proj2 get_workout_streak_counts_back gym_three_days gym_three_days_active).
Defined.

(** ** Transactions of the strength submit flow *)

Lemma set_persists_without_pr : ~ submit_set_all_or_nothing.
Proof.
  intro H.
  destruct (H (fails_at 2) float_repr0 gym 1 1 10 135%Q (jan 1)) as [E|E].
  - apply (f_equal sets) in E. vm_compute in E. discriminate E.
  - apply (f_equal personal_records) in E. vm_compute in E. discriminate E.
Qed.

(** C7 (as the code has it). Every call the strength submit flow makes into
    the store ([add_set], [check_if_pr], one [log_pr] per true flag) is a
    transaction of its own, and a failure ends the run.  The store after the
    run is therefore the store after a prefix of these steps: the initial
    store, the store with the Set row, with the Set row and the first
    PersonalRecord row, or with all rows.  A PersonalRecord row is written
    only after the Set row was committed.  When every connection works, the
    input is valid and the foreign keys exist, the Set row and one
    PersonalRecord row per true flag are all persisted. *)
Theorem submit_set_commits_in_order
        (link : nat -> bool) (float_repr : Q -> string) (d : db)
        (workout_id exercise_id reps : Z) (weight : Q) (today : date) :
  let out := submit_set link float_repr workout_id exercise_id reps weight today (begin d) in
  let final := store (snd out) in
  let row := mkSet (next_set_id d) workout_id exercise_id
                   (next_set d workout_id exercise_id) reps weight (clock d) in
  let d1 := committed d (add_set d workout_id exercise_id reps weight) in
  let pr := check_if_pr d1 exercise_id weight reps today in
  let d2 :=
    if is_weight_pr pr
    then logged d1 (log_pr d1 exercise_id "weight" weight today
                           (Some (str reps ++ " reps")%string))
    else d1 in
  let d3 :=
    if is_1rm_pr pr
    then logged d2 (log_pr d2 exercise_id "1rm" (calculate_estimated_1rm weight reps) today
                           (Some (float_repr weight ++ " lbs x " ++ str reps)%string))
    else d2 in
  (final = d \/ final = d1 \/ final = d2 \/ final = d3) /\
  (personal_records final <> personal_records d -> sets final = sets d ++ [row]) /\
  ((forall k, link k = true) ->
   fst (validate_set_input reps weight) = true ->
   has_workout d workout_id = true -> has_exercise d exercise_id = true ->
   fst out = Ok tt /\ final = d3 /\
   sets final = sets d ++ [row] /\
   personal_records final
   = personal_records d
     ++ (if is_weight_pr pr
         then [mkPR (next_pr_id d) exercise_id "weight" weight today
                    (Some (str reps ++ " reps")%string)]
         else [])
     ++ (if is_1rm_pr pr
         then [mkPR (next_pr_id d + (if is_weight_pr pr then 1 else 0)) exercise_id "1rm"
                    (calculate_estimated_1rm weight reps) today
                    (Some (float_repr weight ++ " lbs x " ++ str reps)%string)]
         else [])).
Proof.
  cbv zeta.
  remember (submit_set link float_repr workout_id exercise_id reps weight today (begin d))
    as out eqn:Hout.
  unfold submit_set, begin in Hout.
  destruct (fst (validate_set_input reps weight)) eqn:Hvalid; cbn [negb] in Hout.
  2:{ unfold ret in Hout. subst out. cbn [fst snd store].
      split; [now left|]. split; [intro H; now contradiction H|].
      intros _ H. discriminate H. }
  unfold bind, db_add_set, db_check_if_pr, db_log_pr, when, insert, query, ret, get_db
    in Hout.
  cbn [store opened] in Hout.
  destruct (link 0%nat) eqn:L0.
  2:{ subst out. cbn [fst snd store].
      split; [now left|]. split; [intro H; now contradiction H|].
      intros Hl. rewrite Hl in L0. discriminate L0. }
  destruct (add_set d workout_id exercise_id reps weight) as [[id d1]|err] eqn:Hadd.
  2:{ subst out. cbn [fst snd store].
      split; [now left|]. split; [intro H; now contradiction H|].
      intros _ _ Hw He.
      unfold add_set in Hadd. rewrite Hw, He in Hadd. discriminate Hadd. }
  pose proof (add_set_ok _ _ _ _ _ _ _ Hadd) as [Hid Hd1].
  assert (Hex : has_exercise d exercise_id = true).
  { unfold add_set in Hadd.
    destruct (has_workout d workout_id); [|discriminate Hadd].
    destruct (has_exercise d exercise_id) eqn:He; [reflexivity|discriminate Hadd]. }
  cbn [committed store opened fst snd] in Hout |- *.
  set (pr := check_if_pr d1 exercise_id weight reps today) in *.
  assert (Hsets1 : sets d1 = sets d ++ [mkSet (next_set_id d) workout_id exercise_id
                   (next_set d workout_id exercise_id) reps weight (clock d)]).
  { rewrite Hd1, Hid. reflexivity. }
  assert (Hprs1 : personal_records d1 = personal_records d) by (rewrite Hd1; reflexivity).
  assert (Hnext1 : next_pr_id d1 = next_pr_id d) by (rewrite Hd1; reflexivity).
  assert (Hlog : forall dd t v c, exercises dd = exercises d ->
            log_pr dd exercise_id t v today c
            = Ok (mkDb (exercises dd) (workouts dd) (sets dd)
                       (personal_records dd ++ [mkPR (next_pr_id dd) exercise_id t v today c])
                       (next_set_id dd) (next_pr_id dd + 1) (clock dd))).
  { intros dd t v c Hdd. unfold log_pr, has_exercise. rewrite Hdd.
    unfold has_exercise in Hex. rewrite Hex. reflexivity. }
  assert (Hexs1 : exercises d1 = exercises d) by (rewrite Hd1; reflexivity).
  clearbody pr. clear Hd1 Hadd.
  destruct (link 1%nat) eqn:L1.
  2:{ subst out. cbn [fst snd store].
      split; [right; now left|]. split; [intros _; exact Hsets1|].
      intros Hl. rewrite Hl in L1. discriminate L1. }
  destruct (is_weight_pr pr) eqn:Fw; destruct (is_1rm_pr pr) eqn:F1;
    repeat (rewrite Hlog by exact Hexs1; cbn [logged]);
    repeat first
      [ progress cbn [logged store opened fst snd] in Hout
      | rewrite Hlog in Hout by exact Hexs1
      | match type of Hout with
        | context [if link ?k then _ else _] => destruct (link k) eqn:?
        end ];
    subst out; cbn [fst snd store sets personal_records next_pr_id];
    (split; [first [ left; reflexivity
                   | right; left; reflexivity
                   | right; right; left; reflexivity
                   | right; right; right; reflexivity ] |]);
    (split; [intros _; exact Hsets1 |]);
    intros Hl _ _ _;
    try (rewrite Hl in *; discriminate);
    (split; [reflexivity|]); (split; [reflexivity|]); (split; [exact Hsets1|]);
    rewrite ?Hprs1, ?Hnext1, ?app_nil_r, ?Z.add_0_r, <- ?app_assoc; reflexivity.
Qed.

Lemma submit_set_commits_in_order_witness :
  fst (submit_set healthy float_repr0 1 1 10 135 (jan 1) (begin gym)) = Ok tt /\
  List.length (sets (store (snd (submit_set healthy float_repr0 1 1 10 135 (jan 1)
                                       (begin gym))))) = 1%nat /\
  List.length (personal_records
            (store (snd (submit_set healthy float_repr0 1 1 10 135 (jan 1)
                                    (begin gym))))) = 2%nat.
Proof.
  destruct (submit_set_commits_in_order healthy float_repr0 gym 1 1 10 135%Q (jan 1))
    as (_ & _ & H).
  destruct H as (Hok & _ & Hsets & Hprs); try reflexivity.
  split; [exact Hok|]. rewrite Hsets, Hprs. split; reflexivity.
Defined.

(** ** Miles stored in [reps] *)

Lemma py_int_floor (x : Q) : (0 <= x)%Q -> py_int x = Qfloor x.
Proof.
  destruct x as [n dn]. unfold Qle, py_int, Qfloor. simpl. intro H.
  apply Z.quot_div_nonneg; lia.
Qed.

Lemma Qfloor_nonneg (x : Q) : (0 <= x)%Q -> 0 <= Qfloor x.
Proof.
  intro H. change 0 with (Qfloor 0). now apply Qfloor_resp_le.
Qed.

(** ** Rounding to a double *)

(** The doubles nearest 0.1 and 0.3; the product of the latter by 10, which
    is below 3 and rounds to 3; a tie, which goes to the even neighbour; the
    [REAL] nearest 30.1. *)
Lemma round_float_examples :
  (round_double (1 # 10) == 3602879701896397 # 36028797018963968)%Q /\
  (round_double (3 # 10) == 5404319552844595 # 18014398509481984)%Q /\
  (round_double (3 # 10) * 10 < 3)%Q /\
  (round_double (round_double (3 # 10) * 10) == 3)%Q /\
  (round_double 9007199254740993 == 9007199254740992)%Q /\
  (round_single (301 # 10) == 15781069 # 524288)%Q.
Proof.
  vm_compute. repeat split.
Qed.

Lemma two_pow_pos (e : Z) : (0 < 2 ^ e)%Q.
Proof. apply Qpower_0_lt. reflexivity. Qed.

Lemma two_pow_plus (a b : Z) : (2 ^ (a + b) == 2 ^ a * 2 ^ b)%Q.
Proof. apply Qpower_plus. discriminate. Qed.

Lemma two_pow_inject (n : Z) : 0 <= n -> (inject_Z (2 ^ n) == 2 ^ n)%Q.
Proof. intro H. exact (Zpower_Qpower 2 n H). Qed.

Lemma two_pow_le (a b : Z) : a <= b -> (2 ^ a <= 2 ^ b)%Q.
Proof. intro H. apply Qpower_le_compat_l; [exact H|discriminate]. Qed.

Lemma two_pow_lt_inv (a b : Z) : (2 ^ a < 2 ^ b)%Q -> a < b.
Proof. intro H. apply (Qpower_lt_compat_l_inv 2); [exact H|reflexivity]. Qed.

Lemma Qmake_times_den (n : Z) (d : positive) :
  ((n # d) * inject_Z (Zpos d) == inject_Z n)%Q.
Proof. unfold Qeq, Qmult, inject_Z. simpl. lia. Qed.

Lemma Qmult_le_nonneg_l (x y z : Q) : (0 <= z)%Q -> (x <= y)%Q -> (z * x <= z * y)%Q.
Proof.
  intros Hz H. rewrite (Qmult_comm z x), (Qmult_comm z y).
  apply Qmult_le_compat_r; assumption.
Qed.

Lemma Qlog2_spec (x : Q) :
  (0 < x)%Q -> (2 ^ Qlog2 x <= x)%Q /\ (x < 2 ^ (Qlog2 x + 1))%Q.
Proof.
  destruct x as [n d]. intro Hx.
  assert (Hn : 0 < n). { unfold Qlt in Hx. simpl in Hx. lia. }
  unfold Qlog2. cbn [Qnum Qden].
  set (a := Z.log2 n). set (b := Z.log2 (Zpos d)).
  assert (Ha : 2 ^ a <= n < 2 ^ (a + 1)) by (apply Z.log2_spec; exact Hn).
  assert (Hb : 2 ^ b <= Zpos d < 2 ^ (b + 1)) by (apply Z.log2_spec; lia).
  assert (Ha0 : 0 <= a) by apply Z.log2_nonneg.
  assert (Hb0 : 0 <= b) by apply Z.log2_nonneg.
  assert (Hq : (0 <= n # d)%Q) by (apply Qlt_le_weak; exact Hx).
  assert (Hlow : (2 ^ (a - b - 1) <= n # d)%Q).
  { apply (Qmult_le_r _ _ (2 ^ (b + 1))); [apply two_pow_pos|].
    rewrite <- two_pow_plus. replace (a - b - 1 + (b + 1)) with a by ring.
    rewrite <- !two_pow_inject by lia.
    apply Qle_trans with (inject_Z n); [rewrite <- Zle_Qle; lia|].
    rewrite <- (Qmake_times_den n d).
    apply Qmult_le_nonneg_l; [exact Hq|]. rewrite <- Zle_Qle. lia. }
  assert (Hhigh : (n # d < 2 ^ (a - b + 1))%Q).
  { apply (Qmult_lt_r _ _ (2 ^ b)); [apply two_pow_pos|].
    rewrite <- two_pow_plus. replace (a - b + 1 + b) with (a + 1) by ring.
    rewrite <- !two_pow_inject by lia.
    apply Qle_lt_trans with (inject_Z n); [|rewrite <- Zlt_Qlt; lia].
    rewrite <- (Qmake_times_den n d).
    apply Qmult_le_nonneg_l; [exact Hq|]. rewrite <- Zle_Qle. lia. }
  destruct (Qle_bool (2 ^ (a - b)) (n # d)) eqn:E.
  - split; [apply Qle_bool_iff; exact E|exact Hhigh].
  - split; [exact Hlow|].
    replace (a - b - 1 + 1) with (a - b) by ring.
    apply Qnot_le_lt. intro H. apply Qle_bool_iff in H. congruence.
Qed.

Lemma inject_Z_succ (n : Z) : (inject_Z (n + 1) == inject_Z n + 1)%Q.
Proof. rewrite inject_Z_plus. reflexivity. Qed.

Lemma inject_Z_pred (n : Z) : (inject_Z (n - 1) == inject_Z n - 1)%Q.
Proof. unfold Z.sub. rewrite inject_Z_plus. reflexivity. Qed.

Lemma rint_near_le (t : Q) (M : Z) : (t < inject_Z M + (1 # 2))%Q -> rint t <= M.
Proof.
  intro H. unfold rint.
  pose proof (Qfloor_le t) as Hf.
  assert (Hle : Qfloor t <= M).
  { assert (Hlt : (inject_Z (Qfloor t) < inject_Z (M + 1))%Q)
      by (rewrite inject_Z_succ; lra).
    rewrite <- Zlt_Qlt in Hlt. lia. }
  destruct (Z.eq_dec (Qfloor t) M) as [E|E].
  - rewrite E.
    assert (Hc : (t - inject_Z M ?= 1 # 2)%Q = Lt) by (rewrite <- Qlt_alt; lra).
    rewrite Hc. lia.
  - destruct (t - inject_Z (Qfloor t) ?= 1 # 2)%Q; [destruct (Z.even _)| |]; lia.
Qed.

Lemma rint_near_ge (t : Q) (M : Z) : (inject_Z M - (1 # 2) < t)%Q -> M <= rint t.
Proof.
  intro H. unfold rint.
  pose proof (Qlt_floor t) as Hf. rewrite inject_Z_succ in Hf.
  assert (Hge : M - 1 <= Qfloor t).
  { assert (Hlt : (inject_Z (M - 1) < inject_Z (Qfloor t + 1))%Q)
      by (rewrite inject_Z_succ, inject_Z_pred; lra).
    rewrite <- Zlt_Qlt in Hlt. lia. }
  destruct (Z.eq_dec (Qfloor t) (M - 1)) as [E|E].
  - rewrite E.
    assert (Hc : (t - inject_Z (M - 1) ?= 1 # 2)%Q = Gt)
      by (rewrite <- Qgt_alt, inject_Z_pred; lra).
    rewrite Hc. lia.
  - destruct (t - inject_Z (Qfloor t) ?= 1 # 2)%Q; [destruct (Z.even _)| |]; lia.
Qed.

Lemma rint_le (t : Q) (M : Z) : (t <= inject_Z M)%Q -> rint t <= M.
Proof. intro H. apply rint_near_le. lra. Qed.

Lemma rint_ge (t : Q) (M : Z) : (inject_Z M <= t)%Q -> M <= rint t.
Proof. intro H. apply rint_near_ge. lra. Qed.

Lemma Qabs_nonneg_eq (x : Q) : (0 <= x)%Q -> Qabs x = x.
Proof.
  destruct x as [n d]. unfold Qle, Qabs. simpl. intro H.
  rewrite Z.abs_eq by lia. reflexivity.
Qed.

Lemma round_double_pos (x : Q) :
  (0 < x)%Q ->
  round_double x
  = (inject_Z (rint (x / 2 ^ ulp_exponent x)) * 2 ^ ulp_exponent x)%Q.
Proof.
  intro H. unfold round_double, round_float, ulp_exponent.
  destruct (Qeq_bool x 0) eqn:E; [|reflexivity].
  apply Qeq_bool_iff in E. rewrite E in H. discriminate H.
Qed.

Lemma two_pow_split (e e' : Z) :
  e <= e' -> (2 ^ e' == inject_Z (2 ^ (e' - e)) * 2 ^ e)%Q.
Proof.
  intro H. rewrite two_pow_inject by lia. rewrite <- two_pow_plus.
  replace (e' - e + e) with e' by ring. reflexivity.
Qed.

Lemma round_double_grid_le (x : Q) (K e' : Z) :
  (0 < x)%Q -> ulp_exponent x <= e' -> (x <= inject_Z K * 2 ^ e')%Q ->
  (round_double x <= inject_Z K * 2 ^ e')%Q.
Proof.
  intros Hx He H. rewrite round_double_pos by exact Hx.
  pose proof (two_pow_split _ _ He) as Hs.
  pose proof (two_pow_pos (ulp_exponent x)) as Hp.
  assert (Hk : (inject_Z K * 2 ^ e'
                == inject_Z (K * 2 ^ (e' - ulp_exponent x)) * 2 ^ ulp_exponent x)%Q).
  { rewrite inject_Z_mult, <- Qmult_assoc, <- Hs. reflexivity. }
  rewrite Hk. rewrite Hk in H.
  apply Qmult_le_compat_r; [|apply Qlt_le_weak; exact Hp].
  rewrite <- Zle_Qle. apply rint_le.
  apply Qle_shift_div_r; [exact Hp|exact H].
Qed.

Lemma round_double_grid_ge (x : Q) (K e' : Z) :
  (0 < x)%Q -> ulp_exponent x <= e' -> (inject_Z K * 2 ^ e' <= x)%Q ->
  (inject_Z K * 2 ^ e' <= round_double x)%Q.
Proof.
  intros Hx He H. rewrite round_double_pos by exact Hx.
  pose proof (two_pow_split _ _ He) as Hs.
  pose proof (two_pow_pos (ulp_exponent x)) as Hp.
  assert (Hk : (inject_Z K * 2 ^ e'
                == inject_Z (K * 2 ^ (e' - ulp_exponent x)) * 2 ^ ulp_exponent x)%Q).
  { rewrite inject_Z_mult, <- Qmult_assoc, <- Hs. reflexivity. }
  rewrite Hk. rewrite Hk in H.
  apply Qmult_le_compat_r; [|apply Qlt_le_weak; exact Hp].
  rewrite <- Zle_Qle. apply rint_ge.
  apply Qle_shift_div_l; [exact Hp|exact H].
Qed.

Lemma round_double_near_le (x : Q) (K : Z) :
  (0 < x)%Q -> (x < (inject_Z K + (1 # 2)) * 2 ^ ulp_exponent x)%Q ->
  (round_double x <= inject_Z K * 2 ^ ulp_exponent x)%Q.
Proof.
  intros Hx H. rewrite round_double_pos by exact Hx.
  pose proof (two_pow_pos (ulp_exponent x)) as Hp.
  apply Qmult_le_compat_r; [|apply Qlt_le_weak; exact Hp].
  rewrite <- Zle_Qle. apply rint_near_le.
  apply Qlt_shift_div_r; [exact Hp|exact H].
Qed.

Lemma ulp_exponent_le (x : Q) (n : Z) :
  (0 < x)%Q -> (x < 2 ^ n)%Q -> -1021 <= n -> ulp_exponent x <= n - 53.
Proof.
  intros Hx H Hn. unfold ulp_exponent, float_exponent.
  rewrite Qabs_nonneg_eq by (apply Qlt_le_weak; exact Hx).
  destruct (Qlog2_spec x Hx) as [Hl _].
  assert (Qlog2 x < n).
  { apply two_pow_lt_inv. eapply Qle_lt_trans; [exact Hl|exact H]. }
  lia.
Qed.

(** Rounding moves a value below 2^53 to no further than the integers around it. *)
Lemma round_double_between (x : Q) :
  (0 <= x)%Q -> (x < 2 ^ 53)%Q ->
  (inject_Z (Qfloor x) <= round_double x <= inject_Z (Qfloor x + 1))%Q.
Proof.
  intros Hx Hlt.
  destruct (Qeq_bool x 0) eqn:E.
  - unfold round_double, round_float. rewrite E. apply Qeq_bool_iff in E.
    rewrite E. split; discriminate.
  - assert (Hpos : (0 < x)%Q).
    { apply Qle_lt_or_eq in Hx. destruct Hx as [Hx|Hx]; [exact Hx|].
      symmetry in Hx. apply Qeq_bool_iff in Hx. congruence. }
    assert (He : ulp_exponent x <= 0).
    { pose proof (ulp_exponent_le x 53 Hpos Hlt). lia. }
    pose proof (Qfloor_le x) as Hf. pose proof (Qlt_floor x) as Hc.
    split.
    + pose proof (round_double_grid_ge x (Qfloor x) 0 Hpos He) as H.
      change (2 ^ 0)%Q with 1%Q in H. rewrite Qmult_1_r in H. apply H. exact Hf.
    + pose proof (round_double_grid_le x (Qfloor x + 1) 0 Hpos He) as H.
      change (2 ^ 0)%Q with 1%Q in H. rewrite Qmult_1_r in H. apply H.
      apply Qlt_le_weak. exact Hc.
Qed.

Lemma py_int_round_double (x : Q) :
  (0 <= x)%Q -> (x < 2 ^ 53)%Q ->
  py_int (round_double x) = Qfloor x \/
  (py_int (round_double x) = Qfloor x + 1 /\
   (round_double x == inject_Z (Qfloor x + 1))%Q).
Proof.
  intros Hx Hlt. destruct (round_double_between x Hx Hlt) as [Hlo Hhi].
  assert (H0 : (0 <= inject_Z (Qfloor x))%Q).
  { change 0%Q with (inject_Z 0). rewrite <- Zle_Qle.
    rewrite <- (Qfloor_Z 0). apply Qfloor_resp_le. exact Hx. }
  rewrite py_int_floor by (eapply Qle_trans; eassumption).
  pose proof (Qfloor_resp_le _ _ Hlo) as H1. rewrite Qfloor_Z in H1.
  pose proof (Qfloor_resp_le _ _ Hhi) as H2. rewrite Qfloor_Z in H2.
  destruct (Z.eq_dec (Qfloor (round_double x)) (Qfloor x)) as [E|E]; [left; exact E|].
  right. assert (E' : Qfloor (round_double x) = Qfloor x + 1) by lia.
  split; [exact E'|].
  apply Qle_antisym; [exact Hhi|]. rewrite <- E'. apply Qfloor_le.
Qed.

(** The largest fraction a double can have is [1 - 2^-53]. *)
Lemma is_double_frac (p : Q) :
  is_double p -> (0 < p)%Q ->
  (p - inject_Z (Qfloor p) <= 1 - 2 ^ (-53))%Q.
Proof.
  intros [Hd _] Hp. rewrite round_double_pos in Hd by exact Hp.
  set (e := ulp_exponent p) in *. set (m := rint (p / 2 ^ e)) in *.
  pose proof (Qlt_floor p) as Hc. rewrite inject_Z_succ in Hc.
  change (2 ^ (-53))%Q with (1 # 9007199254740992)%Q.
  destruct (Z_le_gt_dec (-53) e) as [He|He].
  - pose proof (two_pow_split _ _ He) as Hs. rewrite Hs in Hd.
    change (2 ^ (-53))%Q with (1 # 9007199254740992)%Q in Hd.
    rewrite Qmult_assoc, <- inject_Z_mult in Hd.
    set (N := m * 2 ^ (e - -53)) in *.
    set (J := N - Qfloor p * 2 ^ 53).
    assert (HJ : (inject_Z J == inject_Z N - inject_Z (Qfloor p) * 9007199254740992)%Q).
    { unfold J. unfold Z.sub. rewrite inject_Z_plus, inject_Z_opp, inject_Z_mult.
      reflexivity. }
    assert (Hlt : (inject_Z J < inject_Z (2 ^ 53))%Q).
    { change (inject_Z (2 ^ 53)) with 9007199254740992%Q. lra. }
    rewrite <- Zlt_Qlt in Hlt.
    assert (Hle : (inject_Z J <= inject_Z (2 ^ 53 - 1))%Q) by (rewrite <- Zle_Qle; lia).
    change (inject_Z (2 ^ 53 - 1)) with 9007199254740991%Q in Hle.
    lra.
  - assert (HL : Qlog2 p + 1 <= -1).
    { unfold e, ulp_exponent, float_exponent in He.
      rewrite Qabs_nonneg_eq in He by (apply Qlt_le_weak; exact Hp). lia. }
    destruct (Qlog2_spec p Hp) as [_ Hhi].
    pose proof (two_pow_le _ _ HL) as Hhalf.
    change (2 ^ (-1))%Q with (1 # 2)%Q in Hhalf.
    assert (H0 : (0 <= inject_Z (Qfloor p))%Q).
    { change 0%Q with (inject_Z 0). rewrite <- Zle_Qle.
      apply Qfloor_nonneg. apply Qlt_le_weak. exact Hp. }
    lra.
Qed.

(** Sixty times a fraction of at most [1 - 2^-53] rounds below 60. *)
Lemma round_double_seconds (f : Q) :
  (0 <= f)%Q -> (f <= 1 - 2 ^ (-53))%Q -> (round_double (f * 60) < 60)%Q.
Proof.
  intros H0 H1. change (2 ^ (-53))%Q with (1 # 9007199254740992)%Q in H1.
  destruct (Qeq_bool (f * 60) 0) eqn:E.
  - unfold round_double, round_float. rewrite E. reflexivity.
  - assert (Hpos : (0 < f * 60)%Q).
    { assert (Hne : ~ (f * 60 == 0)%Q).
      { intro H. apply Qeq_bool_iff in H. congruence. }
      apply Qnot_le_lt. intro Hle. apply Hne. lra. }
    assert (He : ulp_exponent (f * 60) <= -47).
    { assert (H64 : (f * 60 < 2 ^ 6)%Q) by (change (2 ^ 6)%Q with 64%Q; lra).
      pose proof (ulp_exponent_le (f * 60) 6 Hpos H64). lia. }
    destruct (Z.eq_dec (ulp_exponent (f * 60)) (-47)) as [E47|E47].
    + pose proof (round_double_near_le (f * 60) (60 * 2 ^ 47 - 1) Hpos) as H.
      rewrite E47 in H.
      change ((inject_Z (60 * 2 ^ 47 - 1) + (1 # 2)) * 2 ^ (-47))%Q
        with (((8444249301319679 # 1) + (1 # 2)) * (1 # 140737488355328))%Q in H.
      change (inject_Z (60 * 2 ^ 47 - 1) * 2 ^ (-47))%Q
        with ((8444249301319679 # 1) * (1 # 140737488355328))%Q in H.
      assert (Hlt : (f * 60 < ((8444249301319679 # 1) + (1 # 2)) * (1 # 140737488355328))%Q)
        by lra.
      specialize (H Hlt). lra.
    + pose proof (round_double_grid_le (f * 60) (60 * 2 ^ 48 - 1) (-48) Hpos) as H.
      change (inject_Z (60 * 2 ^ 48 - 1) * 2 ^ (-48))%Q
        with ((16888498602639359 # 1) * (1 # 281474976710656))%Q in H.
      assert (Hle : (f * 60 <= (16888498602639359 # 1) * (1 # 281474976710656))%Q) by lra.
      assert (He' : ulp_exponent (f * 60) <= -48) by lia.
      specialize (H He' Hle). lra.
Qed.

Lemma update_last_set_hr_reps (d : db) (workout_id exercise_id hr : Z) :
  map set_reps (sets (update_last_set_hr d workout_id exercise_id hr))
  = map set_reps (sets d).
Proof.
  unfold update_last_set_hr.
  destruct (last_set d workout_id exercise_id) as [l|]; [|reflexivity].
  cbn [with_sets sets]. rewrite map_map. apply map_ext. intro s.
  destruct (set_id s =? set_id l); reflexivity.
Qed.

Lemma submit_run_reps
      (link : nat -> bool) (d : db) (workout_id exercise_id : Z)
      (miles time_minutes : Q) (heart_rate : Z) (today : date) :
  let final :=
    store (snd (submit_run link workout_id exercise_id miles time_minutes heart_rate
                           today (begin d))) in
  (map set_reps (sets final) = map set_reps (sets d) \/
   (0 < miles)%Q /\
   map set_reps (sets final)
   = map set_reps (sets d) ++ [py_int (round_double (miles * 10))]) /\
  ((forall k, link k = true) ->
   (0 < miles)%Q -> (0 < time_minutes)%Q ->
   has_workout d workout_id = true -> has_exercise d exercise_id = true ->
   map set_reps (sets final)
   = map set_reps (sets d) ++ [py_int (round_double (miles * 10))]).
Proof.
  cbv zeta.
  remember (submit_run link workout_id exercise_id miles time_minutes heart_rate today
                       (begin d)) as out eqn:Hout.
  unfold submit_run, begin in Hout.
  destruct (Qle_bool miles 0) eqn:Hm.
  { unfold ret in Hout. subst out. cbn [fst snd store].
    split; [now left|]. intros _ Hpos _ _ _.
    apply Qle_bool_iff in Hm. exfalso. exact (Qlt_not_le _ _ Hpos Hm). }
  assert (Hpos : (0 < miles)%Q).
  { apply Qnot_le_lt. intro H. apply Qle_bool_iff in H. congruence. }
  destruct (Qle_bool time_minutes 0) eqn:Ht.
  { unfold ret in Hout. subst out. cbn [fst snd store].
    split; [now left|]. intros _ _ Hpos' _ _.
    apply Qle_bool_iff in Ht. exfalso. exact (Qlt_not_le _ _ Hpos' Ht). }
  unfold bind, db_add_set, db_update_last_set_hr, db_check_running_pr, command, query,
    ret, get_db in Hout.
  cbn [store opened] in Hout.
  destruct (link 0%nat) eqn:L0.
  2:{ subst out. cbn [fst snd store]. split; [now left|].
      intros Hl. rewrite Hl in L0. discriminate L0. }
  destruct (add_set d workout_id exercise_id (py_int (round_double (miles * 10)))
                   time_minutes) as [[id d1]|err] eqn:Hadd.
  2:{ subst out. cbn [fst snd store]. split; [now left|].
      intros _ _ _ Hw He.
      unfold add_set in Hadd. rewrite Hw, He in Hadd. discriminate Hadd. }
  apply add_set_ok in Hadd. destruct Hadd as [_ Hd1].
  assert (Hreps1 : map set_reps (sets d1)
                   = map set_reps (sets d) ++ [py_int (round_double (miles * 10))]).
  { rewrite Hd1. cbn [with_sets sets]. rewrite map_app. reflexivity. }
  clear Hd1.
  assert (Hdone :
            (map set_reps (sets d1) = map set_reps (sets d) \/
             (0 < miles)%Q /\
             map set_reps (sets d1)
             = map set_reps (sets d) ++ [py_int (round_double (miles * 10))]) /\
            ((forall k, link k = true) ->
             (0 < miles)%Q -> (0 < time_minutes)%Q ->
             has_workout d workout_id = true -> has_exercise d exercise_id = true ->
             map set_reps (sets d1)
             = map set_reps (sets d) ++ [py_int (round_double (miles * 10))])).
  { split; [right; split; assumption|]. intros; assumption. }
  cbn [store opened] in Hout.
  repeat first
    [ progress cbn [store opened fst snd] in Hout
    | match type of Hout with
      | context [if link ?k then _ else _] => destruct (link k) eqn:?
      | context [match check_running_pr ?a ?b ?c ?e ?f with _ => _ end] =>
          destruct (check_running_pr a b c e f)
      end ];
    subst out; cbn [fst snd store]; rewrite ?update_last_set_hr_reps;
    exact Hdone.
Qed.

(** C3 (as the code has it). For a double [miles >= 0] with [miles * 10]
    within the [INTEGER] column, the run flow either leaves the [reps] column
    as it was
    (rejected input, or a failure before the insert commits) or appends
    exactly one row, whose [reps] is [int(miles * 10)]: the double product
    [miles * 10], truncated.  That is a non-negative integer of the column;
    it is the floor of the exact product, or one more than that floor when
    the double product rounds up to that integer (for the double nearest
    0.3 it is 3, and for 0.75 it is 7, never the rounded 8).  The flow
    appends the row whenever every connection works, [miles > 0],
    [time_minutes] is positive and within the range of a [REAL], the workout
    and the exercise exist and the next [set_number] of the pair and the
    next id fit their columns. *)
Theorem submit_run_stores_truncated_miles
        (link : nat -> bool) (d : db) (workout_id exercise_id : Z)
        (miles time_minutes : Q) (heart_rate : Z) (today : date) :
  is_double miles -> (0 <= miles)%Q -> (miles * 10 <= 2147483647)%Q ->
  let final :=
    store (snd (submit_run link workout_id exercise_id miles time_minutes heart_rate
                           today (begin d))) in
  let product := round_double (miles * 10) in
  let reps := py_int product in
  (map set_reps (sets final) = map set_reps (sets d) \/
   map set_reps (sets final) = map set_reps (sets d) ++ [reps]) /\
  0 <= reps /\ int4 reps /\
  (reps = Qfloor (miles * 10) \/
   reps = Qfloor (miles * 10) + 1 /\ (product == inject_Z reps)%Q) /\
  ((forall k, link k = true) ->
   (0 < miles)%Q -> (2 ^ (-149) <= time_minutes < 2 ^ 127)%Q ->
   has_workout d workout_id = true -> has_exercise d exercise_id = true ->
   int4 (next_set d workout_id exercise_id) -> int4 (next_set_id d) ->
   map set_reps (sets final) = map set_reps (sets d) ++ [reps]).
Proof.
  intros _ Hmiles Hfit. cbv zeta.
  assert (Hm10 : (0 <= miles * 10)%Q).
  { apply Qmult_le_0_compat; [assumption|discriminate]. }
  assert (H53 : (miles * 10 < 2 ^ 53)%Q).
  { eapply Qle_lt_trans; [exact Hfit|reflexivity]. }
  pose proof (submit_run_reps link d workout_id exercise_id miles time_minutes
                              heart_rate today) as H.
  cbv zeta in H. destruct H as [Hcases Hall].
  destruct (round_double_between _ Hm10 H53) as [Hlo Hhi].
  pose proof (Qfloor_nonneg _ Hm10) as Hf0.
  assert (Hp0 : (0 <= round_double (miles * 10))%Q).
  { eapply Qle_trans; [|exact Hlo]. change 0%Q with (inject_Z 0).
    rewrite <- Zle_Qle. exact Hf0. }
  assert (Htop : (round_double (miles * 10) <= inject_Z 2147483647)%Q).
  { destruct (Qeq_bool (miles * 10) 0) eqn:E.
    - unfold round_double, round_float. rewrite E. discriminate.
    - assert (Hpos : (0 < miles * 10)%Q).
      { apply Qle_lt_or_eq in Hm10. destruct Hm10 as [Hlt|Heq]; [exact Hlt|].
        symmetry in Heq. apply Qeq_bool_iff in Heq. congruence. }
      assert (He : ulp_exponent (miles * 10) <= 0).
      { pose proof (ulp_exponent_le (miles * 10) 53 Hpos H53). lia. }
      pose proof (round_double_grid_le (miles * 10) 2147483647 0 Hpos He) as Hg.
      change (2 ^ 0)%Q with 1%Q in Hg. rewrite Qmult_1_r in Hg. apply Hg. exact Hfit. }
  split; [|split; [|split; [|split]]].
  - destruct Hcases as [H|[_ H]]; [now left|now right].
  - rewrite (py_int_floor _ Hp0). now apply Qfloor_nonneg.
  - rewrite (py_int_floor _ Hp0). unfold int4.
    pose proof (Qfloor_nonneg _ Hp0) as H0.
    pose proof (Qfloor_resp_le _ _ Htop) as H1. rewrite Qfloor_Z in H1. lia.
  - destruct (py_int_round_double _ Hm10 H53) as [E|[E Hq]]; [now left|right].
    split; [exact E|]. rewrite E. exact Hq.
  - intros Hl Hpos [Ht _] Hw He _ _. apply Hall; try assumption.
    eapply Qlt_le_trans; [|exact Ht]. reflexivity.
Qed.

Lemma quarter_mile_truncated : ~ run_reps_rounded.
Proof.
  intro H.
  destruct (H healthy gym 3 2 (3 # 4) 30%Q 150 (jan 3)) as [E|E];
    [discriminate | vm_compute in E; discriminate E ..].
Qed.

Lemma submit_run_stores_truncated_miles_witness :
  map set_reps (sets (store (snd (submit_run healthy 3 2 (round_double (3 # 10)) 30 150
                                             (jan 3) (begin gym))))) = [3].
Proof.
  destruct (submit_run_stores_truncated_miles healthy gym 3 2 (round_double (3 # 10))
              30%Q 150 (jan 3)) as (_ & _ & _ & _ & H).
  - split; vm_compute; reflexivity.
  - vm_compute. discriminate.
  - vm_compute. discriminate.
  - apply H; try reflexivity.
    + split; vm_compute; [discriminate|reflexivity].
    + vm_compute. split; [discriminate|reflexivity].
    + vm_compute. split; [discriminate|reflexivity].
Defined.

(** ** Pace display *)

Lemma fmt_02d_length (n : nat) :
  (n < 60)%nat -> String.length (fmt_02d (Z.of_nat n)) = 2%nat.
Proof.
  intro H.
  do 60 (destruct n as [|n]; [reflexivity|]).
  lia.
Qed.

Lemma py_mod1_nonneg (x : Q) :
  (0 <= x)%Q -> py_mod1 x = (x - inject_Z (Qfloor x))%Q.
Proof.
  intro H. unfold py_mod1. apply Qle_bool_iff in H. now rewrite H.
Qed.

(** C9 (as the code has it). For every double [p > 0] the displayed string
    is [M:SS] with [M = floor(p)] and [SS = int((p - floor(p)) * 60)]: the
    double product, truncated.  [SS] is the floor of the exact product, or
    one more than that floor when the double product rounds up to that
    integer; it is between 0 and 59 and is printed with exactly two
    digits.  (For 6.515625 the seconds are 30.9375 and the string is
    [6:30], not the rounded [6:31]; for the double nearest 233/30 it is
    [7:46].) *)
Theorem format_pace_truncates_seconds (p : Q) :
  is_double p -> (0 < p)%Q ->
  let m := Qfloor p in
  let product := round_double ((p - inject_Z m) * 60) in
  let ss := py_int product in
  format_pace p = (str m ++ ":" ++ fmt_02d ss)%string /\
  (ss = Qfloor ((p - inject_Z m) * 60) \/
   ss = Qfloor ((p - inject_Z m) * 60) + 1 /\ (product == inject_Z ss)%Q) /\
  0 <= ss <= 59 /\
  String.length (fmt_02d ss) = 2%nat.
Proof.
  intros Hd Hp. cbv zeta.
  pose proof (is_double_frac p Hd Hp) as Hfrac.
  pose proof (Qfloor_le p) as Hlo.
  set (f := (p - inject_Z (Qfloor p))%Q) in *.
  assert (Hf0 : (0 <= f)%Q) by (unfold f; lra).
  assert (H60lo : (0 <= f * 60)%Q) by lra.
  assert (H60hi : (f * 60 < 2 ^ 53)%Q).
  { change (2 ^ (-53))%Q with (1 # 9007199254740992)%Q in Hfrac.
    change (2 ^ 53)%Q with 9007199254740992%Q. lra. }
  destruct (round_double_between _ H60lo H60hi) as [Hbelow _].
  pose proof (round_double_seconds f Hf0 Hfrac) as Habove.
  assert (Hr0 : (0 <= round_double (f * 60))%Q).
  { eapply Qle_trans; [|exact Hbelow]. change 0%Q with (inject_Z 0).
    rewrite <- Zle_Qle. now apply Qfloor_nonneg. }
  assert (Hss : 0 <= py_int (round_double (f * 60)) <= 59).
  { rewrite (py_int_floor _ Hr0). split; [now apply Qfloor_nonneg|].
    assert (Hlt : (inject_Z (Qfloor (round_double (f * 60))) < inject_Z 60)%Q).
    { eapply Qle_lt_trans; [apply Qfloor_le|exact Habove]. }
    rewrite <- Zlt_Qlt in Hlt. lia. }
  split; [|split; [|split; [exact Hss|]]].
  - unfold format_pace.
    rewrite (py_mod1_nonneg p (Qlt_le_weak _ _ Hp)).
    rewrite (py_int_floor p (Qlt_le_weak _ _ Hp)). reflexivity.
  - destruct (py_int_round_double _ H60lo H60hi) as [E|[E Hq]]; [now left|right].
    split; [exact E|]. rewrite E. exact Hq.
  - rewrite <- (Z2Nat.id (py_int (round_double (f * 60)))) by lia.
    apply fmt_02d_length. lia.
Qed.

Lemma pace_seconds_truncated : ~ pace_seconds_rounded.
Proof.
  intro H. specialize (H (417 # 64) eq_refl). vm_compute in H. discriminate H.
Qed.

Lemma format_pace_truncates_seconds_witness :
  format_pace (round_double (233 # 30)) = "7:46"%string.
Proof.
  destruct (format_pace_truncates_seconds (round_double (233 # 30))) as [H _].
  - split; vm_compute; reflexivity.
  - reflexivity.
  - rewrite H. vm_compute. reflexivity.
Defined.

(** What the log page shows for some paces: sixteen minutes over three
    miles, 10.1 minutes a mile, and 6.515625 minutes a mile. *)
Lemma format_pace_examples :
  format_pace (round_double (16 / 3)) = "5:19"%string /\
  format_pace (round_double (101 # 10)) = "10:05"%string /\
  format_pace (417 # 64) = "6:30"%string /\
  spec_format_pace (417 # 64) = "6:31"%string.
Proof.
  vm_compute. repeat split.
Qed.

(** ** Ids that name no row *)

Lemma filter_keeps_all {A : Type} (p : A -> bool) (l : list A) :
  (forall x, In x l -> p x = true) -> filter p l = l.
Proof.
  induction l as [|a l IH]; simpl; intro H; [reflexivity|].
  rewrite (H a (or_introl eq_refl)). f_equal. apply IH. auto.
Qed.

Lemma existsb_none {A : Type} (p : A -> bool) (l : list A) :
  (forall x, In x l -> p x = false) -> existsb p l = false.
Proof.
  induction l as [|a l IH]; simpl; intro H; [reflexivity|].
  rewrite (H a (or_introl eq_refl)). apply IH. auto.
Qed.


Lemma has_workout_missing (d : db) (id : Z) :
  (forall w, In w (workouts d) -> wk_id w <> id) -> has_workout d id = false.
Proof.
  intro H. apply existsb_none. intros w Hw. apply Z.eqb_neq. auto.
Qed.


Lemma find_workout_missing (d : db) (id : Z) :
  (forall w, In w (workouts d) -> wk_id w <> id) ->
  find (fun w => wk_id w =? id) (workouts d) = None.
Proof.
  intro H. destruct (find (fun w => wk_id w =? id) (workouts d)) as [w|] eqn:E;
    [|reflexivity].
  apply find_some in E. destruct E as [Hw Hid]. apply Z.eqb_eq in Hid.
  exfalso. exact (H w Hw Hid).
Qed.




(** * Further properties of the code *)

(** ** Input validation *)

(** X1. [validate_set_input] accepts exactly the sets with between 1 and 100
    reps and a weight between 0 and 1000, bounds included. *)
Theorem validate_set_input_accepts (reps : Z) (weight : Q) :
  fst (validate_set_input reps weight) = true <->
  1 <= reps <= 100 /\ (0 <= weight)%Q /\ (weight <= 1000)%Q.
Proof.
  unfold validate_set_input.
  destruct (reps <=? 0) eqn:E1; simpl.
  { apply Z.leb_le in E1. split; [discriminate|lia]. }
  apply Z.leb_gt in E1.
  destruct (Qltb weight 0) eqn:E2; simpl.
  { apply Qltb_lt in E2. split; [discriminate|].
    intros (_ & H & _). exfalso. exact (Qlt_not_le _ _ E2 H). }
  apply Qltb_ge in E2.
  destruct (100 <? reps) eqn:E3; simpl.
  { apply Z.ltb_lt in E3. split; [discriminate|lia]. }
  apply Z.ltb_ge in E3.
  destruct (Qltb 1000 weight) eqn:E4; simpl.
  { apply Qltb_lt in E4. split; [discriminate|].
    intros (_ & _ & H). exfalso. exact (Qlt_not_le _ _ E4 H). }
  apply Qltb_ge in E4.
  split; [intros _|reflexivity]. repeat split; auto; lia.
Qed.

(** ** Estimated one-rep max *)

Lemma epley_lt (weight : Q) (r1 r2 : Z) :
  (0 < weight)%Q -> r1 < r2 -> (epley weight r1 < epley weight r2)%Q.
Proof.
  intros Hw Hr. unfold epley.
  apply Qmult_lt_l; [assumption|].
  rewrite Zlt_Qlt in Hr.
  apply Qplus_lt_r. apply Qmult_lt_r; [reflexivity|assumption].
Qed.

Lemma epley_gt_weight (weight : Q) (r : Z) :
  (0 < weight)%Q -> 0 < r -> (weight < epley weight r)%Q.
Proof.
  intros Hw Hr.
  assert (H : (epley weight 0 == weight)%Q) by (unfold epley; field).
  rewrite <- H at 1. now apply epley_lt.
Qed.

(** X2. For a positive weight [calculate_estimated_1rm] is the weight itself
    at one rep, exceeds the weight from two reps on, and grows strictly with
    the number of reps. *)
Theorem calculate_estimated_1rm_increasing (weight : Q) (r1 r2 : Z) :
  (0 < weight)%Q -> 1 <= r1 -> r1 < r2 ->
  calculate_estimated_1rm weight 1 = weight /\
  (weight < calculate_estimated_1rm weight r2)%Q /\
  (calculate_estimated_1rm weight r1 < calculate_estimated_1rm weight r2)%Q.
Proof.
  intros Hw H1 H12.
  assert (Hbig : calculate_estimated_1rm weight r2 = epley weight r2).
  { unfold calculate_estimated_1rm.
    destruct (r2 =? 1) eqn:E; [apply Z.eqb_eq in E; lia|reflexivity]. }
  split; [reflexivity|]. rewrite Hbig. split.
  - apply epley_gt_weight; [assumption|lia].
  - unfold calculate_estimated_1rm. destruct (r1 =? 1) eqn:E.
    + apply epley_gt_weight; [assumption|lia].
    + now apply epley_lt.
Qed.

Lemma calculate_estimated_1rm_increasing_witness :
  calculate_estimated_1rm 135 1 = 135%Q /\
  (135 < calculate_estimated_1rm 135 10)%Q /\
  (calculate_estimated_1rm 135 1 < calculate_estimated_1rm 135 10)%Q.
Proof.
  apply (calculate_estimated_1rm_increasing 135 1 10); reflexivity.
Defined.

(** ** The PR evaluator and the sets of the day *)

Lemma filter_drops_all {A : Type} (p : A -> bool) (l : list A) :
  (forall x, In x l -> p x = false) -> filter p l = [].
Proof.
  induction l as [|a l IH]; simpl; intro H; [reflexivity|].
  rewrite (H a (or_introl eq_refl)). apply IH. auto.
Qed.




(** ** Running PRs against a history *)

Lemma value_or_nonzero (m dflt : Q) : ~ (m == 0)%Q -> value_or (Some m) dflt = m.
Proof.
  intro H. unfold value_or, truthy.
  destruct (Qeq_bool m 0) eqn:E; [|reflexivity].
  apply Qeq_bool_iff in E. contradiction.
Qed.

Lemma row_miles_pos (s : set_row) : 0 < set_reps s -> (0 < row_miles s)%Q.
Proof.
  intro H. unfold row_miles. apply Qlt_shift_div_l; [reflexivity|].
  rewrite Qmult_0_l. change 0%Q with (inject_Z 0). now rewrite <- Zlt_Qlt.
Qed.

Lemma no_zero_reps (l : list set_row) :
  existsb (fun s => set_reps s =? 0) l = false <-> forall s, In s l -> set_reps s <> 0.
Proof.
  split.
  - intros H s Hs E.
    assert (Ht : existsb (fun s => set_reps s =? 0) l = true).
    { apply existsb_exists. exists s. split; [assumption|now apply Z.eqb_eq]. }
    congruence.
  - intro H. destruct (existsb (fun s => set_reps s =? 0) l) eqn:E; [|reflexivity].
    apply existsb_exists in E. destruct E as (s & Hs & E). apply Z.eqb_eq in E.
    exfalso. exact (H s Hs E).
Qed.

(** X4. Against a history whose sets all have positive [reps],
    [check_running_pr] returns normally for [miles <> 0]; it sets
    [is_distance_pr] exactly when the candidate miles exceed the miles of
    every prior set, and it reports the longest prior distance as
    [previous_max_distance]. *)
Theorem check_running_pr_distance_history (d : db) (exercise_id : Z)
        (miles time_minutes : Q) (workout_date : date) :
  ~ (miles == 0)%Q ->
  (exists s, prior d exercise_id workout_date s) ->
  (forall s, prior d exercise_id workout_date s -> 0 < set_reps s) ->
  exists r,
    check_running_pr d exercise_id miles time_minutes workout_date = Ok r /\
    (is_distance_pr r = true <->
     forall s, prior d exercise_id workout_date s -> (row_miles s < miles)%Q) /\
    (exists s, prior d exercise_id workout_date s /\
               previous_max_distance r = row_miles s) /\
    (forall s, prior d exercise_id workout_date s ->
               (row_miles s <= previous_max_distance r)%Q).
Proof.
  intros Hmiles [s0 Hs0] Hpos.
  unfold check_running_pr.
  assert (Hnz : Qeq_bool miles 0 = false).
  { destruct (Qeq_bool miles 0) eqn:E; [|reflexivity].
    apply Qeq_bool_iff in E. contradiction. }
  rewrite Hnz.
  assert (Hmem : forall s, In s (prior_sets d exercise_id workout_date)
                           <-> prior d exercise_id workout_date s)
    by (intro s; apply prior_sets_In).
  set (P := prior_sets d exercise_id workout_date) in *.
  assert (Hz : existsb (fun s => set_reps s =? 0) P = false).
  { apply no_zero_reps. intros s Hs. apply Hmem in Hs. specialize (Hpos s Hs). lia. }
  rewrite Hz.
  assert (HP : P <> []).
  { intro E. apply Hmem in Hs0. rewrite E in Hs0. destruct Hs0. }
  destruct (sql_max (map row_miles P)) as [far|] eqn:Emax.
  2:{ apply sql_agg_none in Emax. apply map_eq_nil in Emax. contradiction. }
  destruct (sql_max_spec _ _ Emax) as [Hfin Hfle].
  apply in_map_iff in Hfin. destruct Hfin as (sf & Hsf & Hfin).
  assert (Hfar : ~ (far == 0)%Q).
  { intro E. apply Hmem in Hfin. specialize (Hpos sf Hfin).
    pose proof (row_miles_pos sf Hpos) as Hp. rewrite Hsf, E in Hp.
    exact (Qlt_irrefl _ Hp). }
  rewrite (value_or_nonzero far 0 Hfar).
  eexists. split; [reflexivity|]. cbn [is_distance_pr previous_max_distance].
  rewrite Qltb_lt. split; [split|split].
  - intros Hlt s Hs. apply Qle_lt_trans with far; [|assumption].
    apply Hfle. apply in_map. now apply Hmem.
  - intro H. rewrite <- Hsf. apply H. now apply Hmem.
  - exists sf. split; [now apply Hmem|now symmetry].
  - intros s Hs. apply Hfle. apply in_map. now apply Hmem.
Qed.

Lemma check_running_pr_distance_history_witness :
  exists r,
    check_running_pr gym_run 2 4 36 (jan 5) = Ok r /\
    is_distance_pr r = true /\ previous_max_distance r = row_miles (mkSet 1 3 2 1 30 30 0).
Proof.
  assert (Hp : forall s, prior gym_run 2 (jan 5) s -> s = mkSet 1 3 2 1 30 30 0).
  { intros s (Hin & _). change (In s [mkSet 1 3 2 1 30 30 0]) in Hin.
    simpl in Hin. destruct Hin as [E|E]; [symmetry; exact E|destruct E]. }
  destruct (check_running_pr_distance_history gym_run 2 4 36 (jan 5))
    as (r & Hr & Hdist & (s & Hs & Hprev) & _).
  - discriminate.
  - exists (mkSet 1 3 2 1 30 30 0). split; [now left|]. split; [reflexivity|].
    exists (mkWorkout 3 (jan 3) None). repeat split. right. right. now left.
  - intros s Hs. rewrite (Hp s Hs). reflexivity.
  - exists r. split; [exact Hr|]. split.
    + apply Hdist. intros s' Hs'. rewrite (Hp s' Hs'). reflexivity.
    + rewrite Hprev, (Hp s Hs). reflexivity.
Defined.

(** X5. [check_running_pr] returns a result exactly when [miles] is not zero
    and no prior set of the exercise has [reps = 0]; it raises
    [ZeroDivisionError] for [miles = 0], before it reads the store, and
    the database's division-by-zero error when a prior set has [reps = 0]. *)
Theorem check_running_pr_raises (d : db) (exercise_id : Z)
        (miles time_minutes : Q) (workout_date : date) :
  ((exists r, check_running_pr d exercise_id miles time_minutes workout_date = Ok r) <->
   ~ (miles == 0)%Q /\
   forall s, prior d exercise_id workout_date s -> set_reps s <> 0) /\
  (check_running_pr d exercise_id miles time_minutes workout_date
   = Raise ZeroDivisionError <-> (miles == 0)%Q) /\
  (check_running_pr d exercise_id miles time_minutes workout_date
   = Raise DivisionByZero <->
   ~ (miles == 0)%Q /\
   exists s, prior d exercise_id workout_date s /\ set_reps s = 0).
Proof.
  unfold check_running_pr.
  destruct (Qeq_bool miles 0) eqn:Em.
  - apply Qeq_bool_iff in Em. split; [|split]; split.
    + intros [r Hr]. discriminate Hr.
    + intros [H _]. contradiction.
    + intros _. exact Em.
    + reflexivity.
    + discriminate.
    + intros [H _]. contradiction.
  - assert (Hm : ~ (miles == 0)%Q).
    { intro E. apply Qeq_bool_iff in E. congruence. }
    destruct (existsb (fun s => set_reps s =? 0)
                      (prior_sets d exercise_id workout_date)) eqn:Ez.
    + apply existsb_exists in Ez. destruct Ez as (s & Hs & Ez).
      apply Z.eqb_eq in Ez. apply prior_sets_In in Hs.
      split; [|split]; split.
      * intros [r Hr]. discriminate Hr.
      * intros [_ H]. exfalso. exact (H s Hs Ez).
      * discriminate.
      * intro H. contradiction.
      * intros _. split; [assumption|]. exists s. tauto.
      * reflexivity.
    + pose proof (proj1 (no_zero_reps _) Ez) as Hnz.
      split; [|split]; split.
      * intros _. split; [assumption|].
        intros s Hs. apply Hnz. now apply prior_sets_In.
      * intros _. eexists. reflexivity.
      * discriminate.
      * intro H. contradiction.
      * discriminate.
      * intros [_ (s & Hs & E)]. exfalso.
        apply (Hnz s); [now apply prior_sets_In|assumption].
Qed.

(** ** Store invariants *)

Lemma has_workout_iff (d : db) (id : Z) :
  has_workout d id = true <-> exists w, In w (workouts d) /\ wk_id w = id.
Proof.
  unfold has_workout. rewrite existsb_exists. split.
  - intros (w & Hw & E). apply Z.eqb_eq in E. eauto.
  - intros (w & Hw & E). exists w. split; [assumption|now apply Z.eqb_eq].
Qed.

Lemma has_exercise_iff (d : db) (id : Z) :
  has_exercise d id = true <-> exists e, In e (exercises d) /\ ex_id e = id.
Proof.
  unfold has_exercise. rewrite existsb_exists. split.
  - intros (e & He & E). apply Z.eqb_eq in E. eauto.
  - intros (e & He & E). exists e. split; [assumption|now apply Z.eqb_eq].
Qed.

Lemma add_set_refs (d : db) (workout_id exercise_id reps : Z) (weight : Q)
      (id : Z) (d' : db) :
  add_set d workout_id exercise_id reps weight = Ok (id, d') ->
  has_workout d workout_id = true /\ has_exercise d exercise_id = true.
Proof.
  unfold add_set.
  destruct (has_workout d workout_id); [|discriminate].
  destruct (has_exercise d exercise_id); [|discriminate].
  auto.
Qed.

Lemma delete_workout_sets (d : db) (id : Z) (s : set_row) :
  In s (sets (delete_workout d id)) ->
  In s (sets d) /\ (has_workout d id = true -> set_workout_id s <> id).
Proof.
  unfold delete_workout. destruct (has_workout d id); cbn [with_workouts_sets sets].
  - intro H. apply filter_In in H. destruct H as [H E].
    apply negb_true_iff, Z.eqb_neq in E. auto.
  - intro H. split; [assumption|discriminate].
Qed.

Lemma delete_workout_keeps (d : db) (id : Z) (w : workout) :
  In w (workouts d) -> wk_id w <> id -> In w (workouts (delete_workout d id)).
Proof.
  intros Hw Hne. unfold delete_workout.
  destruct (has_workout d id); cbn [with_workouts_sets workouts]; [|assumption].
  apply filter_In. split; [assumption|]. now apply negb_true_iff, Z.eqb_neq.
Qed.

Lemma update_last_set_hr_rows (d : db) (workout_id exercise_id hr : Z) (s' : set_row) :
  In s' (sets (update_last_set_hr d workout_id exercise_id hr)) ->
  exists s, In s (sets d) /\ set_id s' = set_id s /\
            set_workout_id s' = set_workout_id s /\
            set_exercise_id s' = set_exercise_id s.
Proof.
  unfold update_last_set_hr.
  destruct (last_set d workout_id exercise_id) as [l|]; cbn [with_sets sets].
  - intro H. apply in_map_iff in H. destruct H as (s & <- & Hs).
    exists s. destruct (set_id s =? set_id l); auto.
  - intro H. exists s'. auto.
Qed.

Lemma update_last_set_hr_other_tables (d : db) (workout_id exercise_id hr : Z) :
  workouts (update_last_set_hr d workout_id exercise_id hr) = workouts d /\
  exercises (update_last_set_hr d workout_id exercise_id hr) = exercises d /\
  personal_records (update_last_set_hr d workout_id exercise_id hr) = personal_records d /\
  next_set_id (update_last_set_hr d workout_id exercise_id hr) = next_set_id d.
Proof.
  unfold update_last_set_hr.
  destruct (last_set d workout_id exercise_id); auto.
Qed.

Lemma update_workout_notes_has_workout (d : db) (workout_id : Z) (notes : option string)
      (id : Z) :
  has_workout (update_workout_notes d workout_id notes) id = has_workout d id.
Proof.
  unfold has_workout, update_workout_notes. cbn [with_workouts_sets workouts].
  induction (workouts d) as [|w l IH]; simpl; [reflexivity|].
  rewrite IH. destruct (wk_id w =? workout_id); reflexivity.
Qed.

Lemma perform_referential_integrity (a : action) (d : db) :
  referential_integrity d -> referential_integrity (perform a d).
Proof.
  intros [Hsets Hprs].
  destruct a as [w e r wt|i|w|w e hr|w n|e t v day c]; cbn [perform].
  - destruct (add_set d w e r wt) as [[id d']|err] eqn:Hadd; cbn [committed];
      [|split; assumption].
    destruct (add_set_refs _ _ _ _ _ _ _ Hadd) as [Hw He].
    apply add_set_ok in Hadd. destruct Hadd as [_ ->]. split.
    + intros s Hs. cbn [with_sets sets] in Hs. apply in_app_or in Hs.
      destruct Hs as [Hs|[<-|[]]]; [exact (Hsets s Hs)|].
      split; assumption.
    + exact Hprs.
  - split; [|exact Hprs].
    intros s Hs. cbn [delete_set with_sets sets] in Hs.
    apply filter_In in Hs. exact (Hsets s (proj1 Hs)).
  - split.
    + intros s Hs. destruct (delete_workout_sets d w s Hs) as [Hin Hne].
      destruct (Hsets s Hin) as [Hw He]. split.
      * apply has_workout_iff in Hw. destruct Hw as (x & Hx & Ex).
        apply has_workout_iff. exists x. split; [|assumption].
        unfold delete_workout in *.
        destruct (has_workout d w) eqn:E; [|assumption].
        cbn [with_workouts_sets workouts]. apply filter_In. split; [assumption|].
        apply negb_true_iff, Z.eqb_neq. rewrite Ex. now apply Hne.
      * unfold delete_workout. destruct (has_workout d w); exact He.
    + intros r Hr. unfold delete_workout in *.
      destruct (has_workout d w); exact (Hprs r Hr).
  - destruct (update_last_set_hr_other_tables d w e hr) as (Ew & Ee & Ep & _).
    split.
    + intros s Hs. apply update_last_set_hr_rows in Hs.
      destruct Hs as (s0 & Hs0 & _ & Hw & He). rewrite Hw, He.
      unfold has_workout, has_exercise. rewrite Ew, Ee. exact (Hsets s0 Hs0).
    + intros r Hr. rewrite Ep in Hr. unfold has_exercise. rewrite Ee.
      exact (Hprs r Hr).
  - split.
    + intros s Hs. rewrite update_workout_notes_has_workout. exact (Hsets s Hs).
    + exact Hprs.
  - unfold log_pr. destruct (has_exercise d e) eqn:He; cbn [logged];
      [|split; assumption].
    split; [exact Hsets|].
    intros r Hr. cbn [personal_records] in Hr. apply in_app_or in Hr.
    destruct Hr as [Hr|[<-|[]]]; [exact (Hprs r Hr)|exact He].
Qed.

(** X6. Referential integrity is kept by every store command: after any
    sequence of [add_set], [delete_set], [delete_workout],
    [update_last_set_hr], [update_workout_notes] and [log_pr], each set
    still names an existing workout and exercise and each logged PR an
    existing exercise. *)
Theorem perform_all_referential_integrity (acts : list action) (d : db) :
  referential_integrity d -> referential_integrity (perform_all acts d).
Proof.
  unfold perform_all. revert d.
  induction acts as [|a acts IH]; intros d H; simpl; [assumption|].
  apply IH. now apply perform_referential_integrity.
Qed.

Lemma gym_referential_integrity : referential_integrity gym.
Proof.
  split; intros x [].
Qed.

Lemma perform_all_referential_integrity_witness :
  referential_integrity
    (perform_all [DoAddSet 1 1 10 135; DoAddSet 2 2 30 30; DoUpdateLastSetHr 2 2 150;
                  DoLogPr 1 "weight" 135 (jan 1) None; DoDeleteWorkout 1] gym).
Proof.
  apply (perform_all_referential_integrity _ gym). exact gym_referential_integrity.
Defined.

Lemma update_last_set_hr_ids (d : db) (workout_id exercise_id hr : Z) :
  map set_id (sets (update_last_set_hr d workout_id exercise_id hr)) = map set_id (sets d).
Proof.
  unfold update_last_set_hr.
  destruct (last_set d workout_id exercise_id) as [l|]; [|reflexivity].
  cbn [with_sets sets]. rewrite map_map. apply map_ext. intro s.
  destruct (set_id s =? set_id l); reflexivity.
Qed.

Lemma in_map_set_id (l : list set_row) (s : set_row) :
  In s l -> In (set_id s) (map set_id l).
Proof.
  apply in_map.
Qed.

Lemma perform_set_ids_fresh (a : action) (d : db) :
  set_ids_fresh d -> set_ids_fresh (perform a d).
Proof.
  intros [Hnd Hlt].
  destruct a as [w e r wt|i|w|w e hr|w n|e t v day c]; cbn [perform].
  - destruct (add_set d w e r wt) as [[id d']|err] eqn:Hadd; cbn [committed];
      [|split; assumption].
    apply add_set_ok in Hadd. destruct Hadd as [-> ->]. split.
    + cbn [with_sets sets]. rewrite map_app. cbn [map set_id].
      apply NoDup_snoc; [assumption|].
      intro Hin. apply in_map_iff in Hin. destruct Hin as (s & Es & Hs).
      specialize (Hlt s Hs). lia.
    + intros s Hs. cbn [with_sets sets next_set_id] in *.
      apply in_app_or in Hs. destruct Hs as [Hs|[<-|[]]].
      * specialize (Hlt s Hs). lia.
      * cbn [set_id]. lia.
  - split.
    + cbn [delete_set with_sets sets]. now apply NoDup_map_filter.
    + intros s Hs. cbn [delete_set with_sets sets next_set_id] in *.
      apply filter_In in Hs. exact (Hlt s (proj1 Hs)).
  - unfold delete_workout. destruct (has_workout d w); [|split; assumption].
    split.
    + cbn [with_workouts_sets sets]. now apply NoDup_map_filter.
    + intros s Hs. cbn [with_workouts_sets sets next_set_id] in *.
      apply filter_In in Hs. exact (Hlt s (proj1 Hs)).
  - destruct (update_last_set_hr_other_tables d w e hr) as (_ & _ & _ & En).
    split.
    + now rewrite update_last_set_hr_ids.
    + intros s Hs. rewrite En.
      apply in_map_set_id in Hs. rewrite update_last_set_hr_ids in Hs.
      apply in_map_iff in Hs. destruct Hs as (s0 & <- & Hs0). exact (Hlt s0 Hs0).
  - split; assumption.
  - unfold log_pr. destruct (has_exercise d e); cbn [logged]; split; assumption.
Qed.

(** X7. Set ids stay unique: starting from a store whose set ids are
    pairwise distinct and below the sequence's next value, every sequence
    of store commands leaves a store with the same property, so an id
    returned by [add_set] never names two rows. *)
Theorem perform_all_set_ids_fresh (acts : list action) (d : db) :
  set_ids_fresh d -> set_ids_fresh (perform_all acts d).
Proof.
  unfold perform_all. revert d.
  induction acts as [|a acts IH]; intros d H; simpl; [assumption|].
  apply IH. now apply perform_set_ids_fresh.
Qed.

Lemma gym_set_ids_fresh : set_ids_fresh gym.
Proof.
  split; [constructor|intros s []].
Qed.

Lemma perform_all_set_ids_fresh_witness :
  set_ids_fresh
    (perform_all [DoAddSet 1 1 10 135; DoAddSet 1 1 8 145; DoDeleteSet 1;
                  DoAddSet 1 1 6 155] gym).
Proof.
  apply (perform_all_set_ids_fresh _ gym). exact gym_set_ids_fresh.
Defined.

(** X8. Insert, look up, delete: in a store with fresh set ids, the id
    [add_set] returns finds the row just inserted, with the number
    [add_set] gave it, and [delete_set] on that id restores the sets table
    as it was before the insert. *)
Theorem add_set_then_delete_set (d : db) (workout_id exercise_id reps : Z) (weight : Q)
        (id : Z) (d' : db) :
  set_ids_fresh d ->
  add_set d workout_id exercise_id reps weight = Ok (id, d') ->
  find (fun s => set_id s =? id) (sets d')
  = Some (mkSet id workout_id exercise_id (next_set d workout_id exercise_id)
                reps weight (clock d)) /\
  sets (delete_set d' id) = sets d.
Proof.
  intros [_ Hlt] Hadd. apply add_set_ok in Hadd. destruct Hadd as [-> ->].
  cbn [with_sets sets delete_set]. split.
  - induction (sets d) as [|s l IH]; simpl.
    + now rewrite Z.eqb_refl.
    + assert (E : (set_id s =? next_set_id d) = false).
      { apply Z.eqb_neq. specialize (Hlt s (or_introl eq_refl)). lia. }
      rewrite E. apply IH. intros x Hx. apply Hlt. now right.
  - rewrite filter_app. simpl filter. cbn [set_id]. rewrite Z.eqb_refl. simpl.
    rewrite app_nil_r. apply filter_keeps_all.
    intros s Hs. apply negb_true_iff, Z.eqb_neq. specialize (Hlt s Hs). lia.
Qed.

Lemma add_set_then_delete_set_witness :
  find (fun s => set_id s =? 1) (sets gym_bench) = Some (mkSet 1 1 1 1 10 135 0) /\
  sets (delete_set gym_bench 1) = sets gym.
Proof.
  exact (add_set_then_delete_set gym 1 1 10 135 1 gym_bench gym_set_ids_fresh eq_refl).
Defined.

(** ** The PR log *)

Lemma perform_keeps_prs (a : action) (d : db) :
  exists more, personal_records (perform a d) = personal_records d ++ more.
Proof.
  destruct a as [w e r wt|i|w|w e hr|w n|e t v day c]; cbn [perform].
  - exists []. rewrite app_nil_r.
    destruct (add_set d w e r wt) as [[id d']|err] eqn:Hadd; cbn [committed];
      [|reflexivity].
    apply add_set_ok in Hadd. destruct Hadd as [_ ->]. reflexivity.
  - exists []. now rewrite app_nil_r.
  - exists []. rewrite app_nil_r. unfold delete_workout.
    destruct (has_workout d w); reflexivity.
  - exists []. rewrite app_nil_r. apply update_last_set_hr_other_tables.
  - exists []. now rewrite app_nil_r.
  - unfold log_pr. destruct (has_exercise d e); cbn [logged personal_records].
    + eexists. reflexivity.
    + exists []. now rewrite app_nil_r.
Qed.

(** X9. The PR log is append-only: no sequence of store commands removes or
    rewrites a logged PR, not even deleting the set or the workout that
    earned it; the log afterwards is the old log followed by the newly
    logged rows. *)
Theorem perform_all_keeps_prs (acts : list action) (d : db) :
  exists more, personal_records (perform_all acts d) = personal_records d ++ more.
Proof.
  unfold perform_all. revert d.
  induction acts as [|a acts IH]; intro d; simpl.
  - exists []. now rewrite app_nil_r.
  - destruct (IH (perform a d)) as [more2 H2].
    destruct (perform_keeps_prs a d) as [more1 H1].
    exists (more1 ++ more2). now rewrite H2, H1, app_assoc.
Qed.

(** ** Deleting a workout *)

(** X10. After [delete_workout] no workout carries the id any more,
    [get_workout_details] on it raises [TypeError], none of the remaining
    sets is one of its sets when the workout existed, and every workout
    and set of the other workouts is kept. *)
Theorem delete_workout_cascades (d : db) (workout_id : Z) :
  has_workout (delete_workout d workout_id) workout_id = false /\
  get_workout_details (delete_workout d workout_id) workout_id = Raise TypeError /\
  (has_workout d workout_id = true ->
   forall s, In s (sets (delete_workout d workout_id)) ->
             set_workout_id s <> workout_id) /\
  (forall w, In w (workouts d) -> wk_id w <> workout_id ->
             In w (workouts (delete_workout d workout_id))) /\
  (forall s, In s (sets d) -> set_workout_id s <> workout_id ->
             In s (sets (delete_workout d workout_id))).
Proof.
  assert (Hgone : has_workout (delete_workout d workout_id) workout_id = false).
  { unfold delete_workout. destruct (has_workout d workout_id) eqn:E; [|exact E].
    apply has_workout_missing. cbn [with_workouts_sets workouts].
    intros w Hw. apply filter_In in Hw. destruct Hw as [_ Hw].
    now apply negb_true_iff, Z.eqb_neq in Hw. }
  split; [exact Hgone|]. split; [|split; [|split]].
  - unfold get_workout_details. rewrite find_workout_missing; [reflexivity|].
    intros w Hw E.
    assert (Ht : has_workout (delete_workout d workout_id) workout_id = true)
      by (apply has_workout_iff; eauto).
    congruence.
  - intros Hhas s Hs. now apply (delete_workout_sets d workout_id s Hs).
  - apply delete_workout_keeps.
  - intros s Hs Hne. unfold delete_workout.
    destruct (has_workout d workout_id); cbn [with_workouts_sets sets]; [|assumption].
    apply filter_In. split; [assumption|]. now apply negb_true_iff, Z.eqb_neq.
Qed.

(** ** Workout notes *)

(** X11. [update_workout_notes] then [get_workout_by_id]: the workout read
    back has the new notes and its old id and date, a missing id stays
    missing, and every other workout reads back unchanged. *)
Theorem update_workout_notes_read_back (d : db) (workout_id : Z) (notes : option string) :
  get_workout_by_id (update_workout_notes d workout_id notes) workout_id
  = option_map (fun w => mkWorkout (wk_id w) (wk_date w) notes)
               (get_workout_by_id d workout_id) /\
  (forall other, other <> workout_id ->
     get_workout_by_id (update_workout_notes d workout_id notes) other
     = get_workout_by_id d other) /\
  sets (update_workout_notes d workout_id notes) = sets d.
Proof.
  unfold get_workout_by_id, update_workout_notes. cbn [with_workouts_sets workouts sets].
  split; [|split; [|reflexivity]].
  - induction (workouts d) as [|w l IH]; simpl; [reflexivity|].
    destruct (wk_id w =? workout_id) eqn:E; simpl; rewrite E; [reflexivity|exact IH].
  - intros other Hne.
    induction (workouts d) as [|w l IH]; simpl; [reflexivity|].
    destruct (wk_id w =? workout_id) eqn:E; simpl.
    + apply Z.eqb_eq in E.
      assert (E' : (wk_id w =? other) = false) by (apply Z.eqb_neq; lia).
      rewrite E'. exact IH.
    + destruct (wk_id w =? other); [reflexivity|exact IH].
Qed.

(** ** Heart rate of a run *)






(** ** Streak and days since the last workout *)

Lemma workout_dates_head (d : db) (m0 : date) (rest : list date) :
  workout_dates d = m0 :: rest ->
  active_day d m0 /\ (forall x, active_day d x -> x <= m0) /\
  StronglySorted Z.gt rest /\ (forall x, In x rest -> x <= m0 - 1).
Proof.
  intro E.
  pose proof (workout_dates_In d) as HIn. rewrite E in HIn.
  pose proof (distinct_desc_sorted (map wk_date (filter (has_sets d) (workouts d))))
    as Hsorted.
  fold (workout_dates d) in Hsorted. rewrite E in Hsorted.
  apply StronglySorted_inv in Hsorted. destruct Hsorted as [Hrest Hhead].
  rewrite Forall_forall in Hhead.
  split; [apply HIn; now left|]. split; [|split; [assumption|]].
  - intros x Hx. apply HIn in Hx. destruct Hx as [<-|Hx]; [lia|].
    specialize (Hhead x Hx). lia.
  - intros x Hx. specialize (Hhead x Hx). lia.
Qed.

Lemma workout_dates_nil (d : db) :
  workout_dates d = [] -> forall x, ~ active_day d x.
Proof.
  intros E x Hx. apply workout_dates_In in Hx. rewrite E in Hx. exact Hx.
Qed.

(** X14. The streak is positive exactly when some non-empty workout is
    dated today or yesterday and none is dated after today: one workout
    dated in the future resets the streak to 0, whatever was logged. *)
Theorem get_workout_streak_positive (d : db) (today : date) :
  0 <= get_workout_streak d today /\
  (0 < get_workout_streak d today <->
   (active_day d today \/ active_day d (today - 1)) /\
   forall x, active_day d x -> x <= today).
Proof.
  unfold get_workout_streak.
  destruct (workout_dates d) as [|m0 rest] eqn:E.
  - pose proof (workout_dates_nil d E) as Hno.
    split; [lia|]. split; [lia|].
    intros [[H|H] _]; exfalso; exact (Hno _ H).
  - destruct (workout_dates_head d m0 rest E) as (Hm0 & Hmax & Hsorted & Hrest).
    destruct (count_consecutive_spec rest (m0 - 1) 1 Hsorted Hrest) as (Hk & _ & _).
    destruct (m0 =? today) eqn:E1; [|destruct (m0 =? today - 1) eqn:E2]; simpl.
    + apply Z.eqb_eq in E1. subst m0.
      split; [lia|]. split; [intros _|lia]. split; [now left|exact Hmax].
    + apply Z.eqb_eq in E2. subst m0.
      split; [lia|]. split; [intros _|lia]. split; [now right|].
      intros x Hx. specialize (Hmax x Hx). lia.
    + apply Z.eqb_neq in E1, E2.
      split; [lia|]. split; [lia|].
      intros [[H|H] Hall]; specialize (Hmax _ H); specialize (Hall m0 Hm0); lia.
Qed.

Lemma last_workout_date (d : db) (m : date) :
  active_day d m -> (forall x, active_day d x -> x <= m) ->
  sql_max_int (map wk_date (filter (has_sets d) (workouts d))) = Some m.
Proof.
  intros Hm Hmax.
  assert (Hmem : forall x, In x (map wk_date (filter (has_sets d) (workouts d)))
                           <-> active_day d x).
  { intro x. rewrite <- workout_dates_In. unfold workout_dates.
    now rewrite distinct_desc_In. }
  apply sql_max_int_eq.
  - now apply Hmem.
  - intros y Hy. apply Hmax. now apply Hmem.
Qed.

(** X15. [get_days_since_last_workout] is 999 when no workout has a set, and
    otherwise the number of days from the latest non-empty workout date to
    today; whenever the streak is positive it is 0 or 1. *)
Theorem get_days_since_last_workout_spec (d : db) (today : date) :
  ((forall x, ~ active_day d x) -> get_days_since_last_workout d today = 999) /\
  (forall m, active_day d m -> (forall x, active_day d x -> x <= m) ->
             get_days_since_last_workout d today = today - m) /\
  (0 < get_workout_streak d today -> 0 <= get_days_since_last_workout d today <= 1).
Proof.
  assert (Hlatest : forall m, active_day d m -> (forall x, active_day d x -> x <= m) ->
                              get_days_since_last_workout d today = today - m).
  { intros m Hm Hmax. unfold get_days_since_last_workout.
    now rewrite (last_workout_date d m Hm Hmax). }
  split; [|split; [exact Hlatest|]].
  - intro Hno. unfold get_days_since_last_workout.
    destruct (sql_max_int _) as [m|] eqn:E; [|reflexivity].
    apply sql_max_int_spec in E. destruct E as [Hin _]. exfalso.
    apply (Hno m). apply workout_dates_In. unfold workout_dates.
    now rewrite distinct_desc_In.
  - intro Hpos. unfold get_workout_streak in Hpos.
    destruct (workout_dates d) as [|m0 rest] eqn:E; [lia|].
    destruct (workout_dates_head d m0 rest E) as (Hm0 & Hmax & _ & _).
    rewrite (Hlatest m0 Hm0 Hmax).
    destruct (m0 =? today) eqn:E1; [|destruct (m0 =? today - 1) eqn:E2];
      simpl in Hpos.
    + apply Z.eqb_eq in E1. lia.
    + apply Z.eqb_eq in E2. lia.
    + lia.
Qed.

(** ** Ordered listings *)

Lemma insert_by_perm {A : Type} (key : A -> Z) (x : A) (l : list A) :
  Permutation (insert_by key x l) (x :: l).
Proof.
  induction l as [|y l IH]; simpl; [reflexivity|].
  destruct (key y <=? key x); [|reflexivity].
  rewrite IH. apply perm_swap.
Qed.

Lemma insert_by_sorted {A : Type} (key : A -> Z) (x : A) (l : list A) :
  StronglySorted (fun a b => key a <= key b) l ->
  StronglySorted (fun a b => key a <= key b) (insert_by key x l).
Proof.
  induction l as [|y l IH]; simpl; intro Hs.
  - constructor; constructor.
  - apply StronglySorted_inv in Hs. destruct Hs as [Hs Hy].
    destruct (key y <=? key x) eqn:E.
    + apply Z.leb_le in E. constructor; [now apply IH|].
      rewrite Forall_forall in *. intros z Hz.
      apply (Permutation_in _ (insert_by_perm key x l)) in Hz.
      destruct Hz as [<-|Hz]; [assumption|now apply Hy].
    + apply Z.leb_gt in E. constructor.
      * constructor; assumption.
      * constructor; [lia|].
        rewrite Forall_forall in *. intros z Hz. specialize (Hy z Hz). lia.
Qed.

Lemma order_by_acc {A : Type} (key : A -> Z) (l acc : list A) :
  StronglySorted (fun a b => key a <= key b) acc ->
  Permutation (fold_left (fun acc x => insert_by key x acc) l acc) (acc ++ l) /\
  StronglySorted (fun a b => key a <= key b)
                 (fold_left (fun acc x => insert_by key x acc) l acc).
Proof.
  revert acc. induction l as [|x l IH]; intros acc Hacc; simpl.
  - rewrite app_nil_r. split; [reflexivity|assumption].
  - destruct (IH (insert_by key x acc) (insert_by_sorted key x acc Hacc)) as [Hp Hs].
    split; [|assumption].
    rewrite Hp, insert_by_perm. apply Permutation_middle.
Qed.

Lemma order_by_perm {A : Type} (key : A -> Z) (l : list A) :
  Permutation (order_by key l) l.
Proof.
  apply (order_by_acc key l []). constructor.
Qed.

Lemma order_by_sorted {A : Type} (key : A -> Z) (l : list A) :
  StronglySorted (fun a b => key a <= key b) (order_by key l).
Proof.
  apply (order_by_acc key l []). constructor.
Qed.

Lemma order_by_In {A : Type} (key : A -> Z) (l : list A) (x : A) :
  In x (order_by key l) <-> In x l.
Proof.
  split; apply Permutation_in; [|symmetry]; apply order_by_perm.
Qed.

Lemma has_sets_iff (d : db) (w : workout) :
  has_sets d w = true <-> exists s, In s (sets d) /\ set_workout_id s = wk_id w.
Proof.
  unfold has_sets. rewrite existsb_exists. split.
  - intros (s & Hs & E). apply Z.eqb_eq in E. eauto.
  - intros (s & Hs & E). exists s. split; [assumption|now apply Z.eqb_eq].
Qed.

Lemma StronglySorted_weaken {A : Type} (R R' : A -> A -> Prop) (l : list A) :
  (forall a b, R a b -> R' a b) -> StronglySorted R l -> StronglySorted R' l.
Proof.
  intros HR Hs. induction Hs as [|a l Hs IH Ha]; constructor; [assumption|].
  rewrite Forall_forall in *. auto.
Qed.

(** X16. [get_workouts_by_date_range] lists exactly the workouts dated
    within the range, bounds included, that have at least one set, newest
    first; an empty workout is never listed, and no workout is listed twice
    when workout ids are unique.  With [utils.get_date_range] the history
    page therefore shows non-empty workouts of the last [days_back] days up
    to today only. *)
Theorem get_workouts_by_date_range_lists (d : db) (start_date end_date : date) :
  (forall w, In w (get_workouts_by_date_range d start_date end_date) <->
             In w (workouts d) /\ start_date <= wk_date w <= end_date /\
             exists s, In s (sets d) /\ set_workout_id s = wk_id w) /\
  StronglySorted (fun a b => wk_date b <= wk_date a)
                 (get_workouts_by_date_range d start_date end_date) /\
  (NoDup (map wk_id (workouts d)) ->
   NoDup (map wk_id (get_workouts_by_date_range d start_date end_date))) /\
  (forall today days_back w,
     start_date = fst (get_date_range today days_back) ->
     end_date = snd (get_date_range today days_back) ->
     In w (get_workouts_by_date_range d start_date end_date) ->
     today - days_back <= wk_date w <= today).
Proof.
  assert (Hin : forall w, In w (get_workouts_by_date_range d start_date end_date) <->
             In w (workouts d) /\ start_date <= wk_date w <= end_date /\
             exists s, In s (sets d) /\ set_workout_id s = wk_id w).
  { intro w. unfold get_workouts_by_date_range.
    rewrite order_by_In, filter_In, !andb_true_iff, has_sets_iff, !Z.leb_le. tauto. }
  split; [exact Hin|]. split; [|split].
  - unfold get_workouts_by_date_range.
    eapply StronglySorted_weaken; [|apply order_by_sorted].
    intros a b H. simpl in H. lia.
  - intro Hnd. unfold get_workouts_by_date_range.
    eapply Permutation_NoDup.
    + apply Permutation_map. symmetry. apply order_by_perm.
    + now apply NoDup_map_filter.
  - intros today days_back w -> -> Hw. apply Hin in Hw. simpl in Hw. tauto.
Qed.

Lemma nodup_of_NoDup (l : list Z) : NoDup l -> nodup Z.eq_dec l = l.
Proof.
  apply nodup_fixed_point.
Qed.

(** X17. The dashboard's workout count and the history listing agree: when
    workout ids are unique, [num_workouts] of [get_week_summary] is the
    number of workouts [get_workouts_by_date_range] lists for the same
    range; over a range whose start lies after its end all three totals
    are 0. *)
Theorem get_week_summary_counts (d : db) (start_date end_date : date) :
  (NoDup (map wk_id (workouts d)) ->
   num_workouts (get_week_summary d start_date end_date)
   = Z.of_nat (List.length (get_workouts_by_date_range d start_date end_date))) /\
  (end_date < start_date ->
   get_week_summary d start_date end_date = mkWeekSummary 0 0 0).
Proof.
  split.
  - intro Hnd. unfold get_week_summary, get_workouts_by_date_range.
    cbn [num_workouts].
    rewrite nodup_of_NoDup by now apply NoDup_map_filter.
    rewrite length_map. f_equal.
    apply Permutation_length. symmetry. apply order_by_perm.
  - intro Hempty.
    assert (Hrange : forall x, (start_date <=? x) && (x <=? end_date) = false).
    { intro x. apply andb_false_iff.
      destruct (start_date <=? x) eqn:E; [right|now left].
      apply Z.leb_le in E. apply Z.leb_gt. lia. }
    unfold get_week_summary.
    assert (Hrows : week_rows d start_date end_date = []).
    { assert (Hf : forall s,
                filter (fun w => (set_workout_id s =? wk_id w)
                                 && (start_date <=? wk_date w) && (wk_date w <=? end_date))
                       (workouts d) = []).
      { intro s. apply filter_drops_all.
        intros w _. rewrite <- andb_assoc, Hrange. apply andb_false_r. }
      unfold week_rows. induction (sets d) as [|s l IH]; simpl; [reflexivity|].
      now rewrite IH, Hf. }
    rewrite Hrows. simpl.
    rewrite filter_drops_all; [reflexivity|].
    intros w _. now rewrite Hrange.
Qed.

(** ** Workout details *)

Lemma one_exercise_per_id (l : list exercise) (k : Z) :
  NoDup (map ex_id l) -> (exists e, In e l /\ ex_id e = k) ->
  exists e, filter (fun e => k =? ex_id e) l = [e].
Proof.
  induction l as [|a l IH]; simpl; intros Hnd (e & He & Ek); [destruct He|].
  inversion Hnd as [|? ? Ha Hl]; subst.
  destruct (ex_id e =? ex_id a) eqn:E.
  - apply Z.eqb_eq in E. exists a. f_equal.
    apply filter_drops_all. intros x Hx. apply Z.eqb_neq. intro Ex.
    apply Ha. rewrite <- E, Ex. now apply in_map.
  - apply Z.eqb_neq in E. destruct He as [->|He]; [congruence|].
    apply IH; eauto.
Qed.

(** X18. For a workout that exists, [get_workout_details] returns it with the
    rows of its sets joined to their exercises, ordered by creation time;
    when the foreign keys hold and exercise ids are unique, every set of
    the workout is listed exactly once, so the number of rows is the number
    of sets the history page prints. *)
Theorem get_workout_details_lists (d : db) (workout_id : Z) (w : workout) :
  get_workout_by_id d workout_id = Some w ->
  exists r,
    get_workout_details d workout_id = Ok r /\
    wd_workout r = w /\ wk_id w = workout_id /\
    (forall x, In x (wd_sets r) <->
       exists s e,
         In s (sets d) /\ set_workout_id s = workout_id /\
         In e (exercises d) /\ ex_id e = set_exercise_id s /\
         x = mkSetDetail s (ex_name e) (ex_category e)) /\
    StronglySorted
      (fun a b => set_created_at (sd_set a) <= set_created_at (sd_set b)) (wd_sets r) /\
    (referential_integrity d -> NoDup (map ex_id (exercises d)) ->
     Permutation (map sd_set (wd_sets r))
                 (filter (fun s => set_workout_id s =? workout_id) (sets d))).
Proof.
  unfold get_workout_by_id, get_workout_details. intro Hfind. rewrite Hfind.
  eexists. split; [reflexivity|]. cbn [wd_workout wd_sets].
  split; [reflexivity|]. split; [|split; [|split]].
  - apply find_some in Hfind. now apply Z.eqb_eq.
  - intro x. rewrite order_by_In, in_flat_map. split.
    + intros (s & Hs & Hx). apply filter_In in Hs. destruct Hs as [Hs Ew].
      apply Z.eqb_eq in Ew. apply in_map_iff in Hx. destruct Hx as (e & <- & He).
      apply filter_In in He. destruct He as [He Ee]. apply Z.eqb_eq in Ee.
      exists s, e. auto.
    + intros (s & e & Hs & Ew & He & Ee & ->). exists s. split.
      * apply filter_In. split; [assumption|now apply Z.eqb_eq].
      * apply in_map_iff. exists e. split; [reflexivity|].
        apply filter_In. split; [assumption|]. apply Z.eqb_eq. auto.
  - apply order_by_sorted.
  - intros [Hfk _] Hnd.
    rewrite (Permutation_map sd_set (order_by_perm _ _)).
    assert (Hsub : forall l, (forall s, In s l -> In s (sets d)) ->
              map sd_set
                (flat_map
                   (fun s =>
                      map (fun e => mkSetDetail s (ex_name e) (ex_category e))
                          (filter (fun e => set_exercise_id s =? ex_id e) (exercises d)))
                   l) = l).
    { induction l as [|s l IH]; intro Hl; simpl; [reflexivity|].
      rewrite map_app, IH by (intros x Hx; apply Hl; now right).
      destruct (one_exercise_per_id (exercises d) (set_exercise_id s) Hnd) as [e He].
      { apply has_exercise_iff. apply (Hfk s). apply Hl. now left. }
      rewrite He. reflexivity. }
    rewrite Hsub; [reflexivity|].
    intros s Hs. apply filter_In in Hs. tauto.
Qed.

Lemma get_workout_details_lists_witness :
  exists r,
    get_workout_details gym_run 3 = Ok r /\
    wd_sets r = [mkSetDetail (mkSet 1 3 2 1 30 30 0) "Morning Run" (Some "Easy Run"%string)].
Proof.
  destruct (get_workout_details_lists gym_run 3 (mkWorkout 3 (jan 3) None) eq_refl)
    as (r & Hr & _).
  exists r. split; [exact Hr|].
  vm_compute in Hr. injection Hr as <-. reflexivity.
Defined.

(** ** Last session of an exercise *)

Lemma firstn_subset {A : Type} (n : nat) (l : list A) (x : A) :
  In x (firstn n l) -> In x l.
Proof.
  revert l. induction n as [|n IH]; intros [|a l]; simpl; try tauto.
  intros [H|H]; [now left|right; now apply IH].
Qed.

Lemma firstn_sorted {A : Type} (R : A -> A -> Prop) (n : nat) (l : list A) :
  StronglySorted R l -> StronglySorted R (firstn n l).
Proof.
  revert l. induction n as [|n IH]; intros l Hs; [constructor|].
  destruct Hs as [|a l Hs Ha]; simpl; constructor; [now apply IH|].
  rewrite Forall_forall in *. intros x Hx. apply Ha.
  now apply firstn_subset in Hx.
Qed.

Lemma session_rows_In (d : db) (exercise_id : Z) (before_date : option date)
      (row : session_row) :
  In row
     (flat_map
        (fun s =>
           map (fun w => mkSessionRow (wk_date w) (set_number s) (set_reps s) (set_weight s))
               (filter (fun w => (set_workout_id s =? wk_id w)
                                 && match before_date with
                                    | Some b => wk_date w <? b
                                    | None => true
                                    end)
                       (workouts d)))
        (filter (fun s => set_exercise_id s =? exercise_id) (sets d)))
  <-> session_of d exercise_id before_date row.
Proof.
  unfold session_of. rewrite in_flat_map. split.
  - intros (s & Hs & Hrow). apply filter_In in Hs. destruct Hs as [Hs Ee].
    apply Z.eqb_eq in Ee. apply in_map_iff in Hrow. destruct Hrow as (w & <- & Hw).
    apply filter_In in Hw. destruct Hw as [Hw Hc].
    apply andb_true_iff in Hc. destruct Hc as [Ew Hb]. apply Z.eqb_eq in Ew.
    exists s, w. repeat split; auto.
    destruct before_date as [b|]; [now apply Z.ltb_lt|exact I].
  - intros (s & w & Hs & Ee & Hw & Ew & Hb & ->). exists s. split.
    + apply filter_In. split; [assumption|now apply Z.eqb_eq].
    + apply in_map_iff. exists w. split; [reflexivity|].
      apply filter_In. split; [assumption|]. apply andb_true_iff. split.
      * apply Z.eqb_eq. auto.
      * destruct before_date as [b|]; [now apply Z.ltb_lt|reflexivity].
Qed.

(** X19. [get_last_workout_for_exercise] returns [None] exactly when the
    exercise has no set in a workout (dated before [before_date], when one
    is given).  Otherwise it returns between 1 and 10 rows of the exercise,
    newest workout first, and its [date] is the latest workout date among
    all such rows. *)
Theorem get_last_workout_for_exercise_latest
        (d : db) (exercise_id : Z) (before_date : option date) :
  (get_last_workout_for_exercise d exercise_id before_date = None <->
   forall row, ~ session_of d exercise_id before_date row) /\
  (forall r,
     get_last_workout_for_exercise d exercise_id before_date = Some r ->
     (1 <= List.length (ls_sets r) <= 10)%nat /\
     (forall x, In x (ls_sets r) -> session_of d exercise_id before_date x) /\
     (exists x, In x (ls_sets r) /\ sr_workout_date x = ls_date r) /\
     (forall row, session_of d exercise_id before_date row ->
                  sr_workout_date row <= ls_date r) /\
     StronglySorted (fun a b => sr_workout_date b <= sr_workout_date a) (ls_sets r)).
Proof.
  unfold get_last_workout_for_exercise.
  pose proof (session_rows_In d exercise_id before_date) as Hmem.
  set (joined := flat_map _ _) in *.
  set (sorted := order_by (fun r => - sr_workout_date r) (order_by sr_set_number joined)).
  assert (Hsorted_In : forall x, In x sorted <-> In x joined).
  { intro x. unfold sorted. now rewrite !order_by_In. }
  assert (Hdesc : StronglySorted (fun a b => sr_workout_date b <= sr_workout_date a) sorted).
  { unfold sorted. eapply StronglySorted_weaken; [|apply order_by_sorted].
    intros a b H. simpl in H. lia. }
  destruct sorted as [|first rest] eqn:E.
  - change (firstn 10 (@nil session_row)) with (@nil session_row). cbv iota. split.
    + split; [intros _|reflexivity].
      intros row Hrow. apply Hmem, Hsorted_In in Hrow. exact Hrow.
    + intros r Hr. discriminate Hr.
  - pose proof (firstn_sorted _ 10 (first :: rest) Hdesc) as Hs10.
    change (firstn 10 (first :: rest)) with (first :: firstn 9 rest) in Hs10 |- *.
    pose proof (firstn_le_length 9 rest) as Hlen.
    pose proof (firstn_subset 9 rest) as Hsub.
    remember (firstn 9 rest) as shown eqn:Eshown. clear Eshown.
    cbv iota. split.
    + split; [discriminate|].
      intro Hno. exfalso. apply (Hno first). apply Hmem, Hsorted_In. now left.
    + intros r Hr. injection Hr as <-. cbn [ls_sets ls_date].
      split; [|split; [|split; [|split]]].
      * cbn [List.length]. lia.
      * intros x Hx. apply Hmem, Hsorted_In.
        destruct Hx as [<-|Hx]; [now left|right; now apply Hsub].
      * exists first. split; [now left|reflexivity].
      * intros row Hrow. apply Hmem, Hsorted_In in Hrow.
        apply StronglySorted_inv in Hdesc. destruct Hdesc as [_ Hhead].
        rewrite Forall_forall in Hhead.
        destruct Hrow as [<-|Hrow]; [lia|now apply Hhead].
      * exact Hs10.
Qed.

(** ** Week summary *)

Lemma filter_andb {A : Type} (f g : A -> bool) (l : list A) :
  filter (fun x => f x && g x) l = filter g (filter f l).
Proof.
  induction l as [|a l IH]; simpl; [reflexivity|].
  destruct (f a); simpl; [destruct (g a)|]; now rewrite IH.
Qed.

Lemma filter_key_unique {A : Type} (key : A -> Z) (l : list A) (a : A) :
  NoDup (map key l) -> In a l -> filter (fun x => key a =? key x) l = [a].
Proof.
  induction l as [|b l IH]; simpl; intros Hnd Ha; [destruct Ha|].
  inversion Hnd as [|? ? Hb Hl]; subst.
  destruct Ha as [->|Ha].
  - rewrite Z.eqb_refl. f_equal. apply filter_drops_all.
    intros x Hx. apply Z.eqb_neq. intro E. apply Hb. rewrite E. now apply in_map.
  - assert (E : (key a =? key b) = false).
    { apply Z.eqb_neq. intro E. apply Hb. rewrite <- E. now apply in_map. }
    rewrite E. now apply IH.
Qed.

Lemma sql_sum_snoc (l : list Q) (x : Q) :
  coalesce_q (sql_sum (l ++ [x])) 0 = (coalesce_q (sql_sum l) 0 + x)%Q.
Proof.
  unfold sql_sum. destruct l as [|a l]; [reflexivity|].
  simpl. now rewrite fold_left_app.
Qed.

Lemma week_rows_add_set (d : db) (workout_id exercise_id reps : Z) (weight : Q)
      (id : Z) (d' : db) (wk : workout) (ex : exercise) (a b : date) :
  add_set d workout_id exercise_id reps weight = Ok (id, d') ->
  NoDup (map wk_id (workouts d)) -> NoDup (map ex_id (exercises d)) ->
  In wk (workouts d) -> wk_id wk = workout_id ->
  In ex (exercises d) -> ex_id ex = exercise_id ->
  week_rows d' a b
  = week_rows d a b
    ++ (if (a <=? wk_date wk) && (wk_date wk <=? b)
        then [(mkSet id workout_id exercise_id (next_set d workout_id exercise_id)
                     reps weight (clock d), ex)]
        else []).
Proof.
  intros Hadd Hw He Hwk <- Hex <-.
  apply add_set_ok in Hadd. destruct Hadd as [-> ->].
  unfold week_rows. cbn [with_sets sets workouts exercises].
  rewrite flat_map_app. f_equal. cbn [flat_map set_workout_id set_exercise_id].
  rewrite app_nil_r.
  rewrite (filter_key_unique ex_id (exercises d) ex He Hex).
  rewrite (filter_ext _ (fun w => (wk_id wk =? wk_id w)
                                  && ((a <=? wk_date w) && (wk_date w <=? b))));
    [|intro w; now rewrite andb_assoc].
  rewrite filter_andb, (filter_key_unique wk_id (workouts d) wk Hw Hwk).
  simpl. destruct ((a <=? wk_date wk) && (wk_date wk <=? b)); reflexivity.
Qed.

(** X20. What [add_set] does to the week summary, when workout and exercise
    ids are unique: a set of a strength exercise in a workout dated within
    the range adds [reps * weight] to [total_volume]; a set of a running
    exercise adds [reps / 10] to [total_miles]; a set of an exercise without
    category, or in a workout outside the range, changes neither total. *)
Theorem get_week_summary_add_set
        (d : db) (workout_id exercise_id reps : Z) (weight : Q) (id : Z) (d' : db)
        (wk : workout) (ex : exercise) (a b : date) :
  add_set d workout_id exercise_id reps weight = Ok (id, d') ->
  NoDup (map wk_id (workouts d)) -> NoDup (map ex_id (exercises d)) ->
  In wk (workouts d) -> wk_id wk = workout_id ->
  In ex (exercises d) -> ex_id ex = exercise_id ->
  let in_range := (a <=? wk_date wk) && (wk_date wk <=? b) in
  total_volume (get_week_summary d' a b)
  = (if in_range && is_strength_row ex
     then total_volume (get_week_summary d a b) + inject_Z reps * weight
     else total_volume (get_week_summary d a b))%Q /\
  total_miles (get_week_summary d' a b)
  = (if in_range && is_running_row ex
     then total_miles (get_week_summary d a b) + inject_Z reps / 10
     else total_miles (get_week_summary d a b))%Q /\
  (ex_category ex = None ->
   total_volume (get_week_summary d' a b) = total_volume (get_week_summary d a b) /\
   total_miles (get_week_summary d' a b) = total_miles (get_week_summary d a b)).
Proof.
  intros Hadd Hw He Hwk Ewk Hex Eex. cbv zeta.
  pose proof (week_rows_add_set _ _ _ _ _ _ _ wk ex a b Hadd Hw He Hwk Ewk Hex Eex)
    as Hrows.
  assert (Hvol :
    total_volume (get_week_summary d' a b)
    = (if (a <=? wk_date wk) && (wk_date wk <=? b) && is_strength_row ex
       then total_volume (get_week_summary d a b) + inject_Z reps * weight
       else total_volume (get_week_summary d a b))%Q).
  { unfold get_week_summary. cbn [total_volume]. rewrite Hrows, filter_app.
    destruct ((a <=? wk_date wk) && (wk_date wk <=? b)); simpl filter;
      [|now rewrite app_nil_r].
    cbn [snd andb]. destruct (is_strength_row ex); [|now rewrite app_nil_r].
    rewrite map_app. cbn [map fst set_reps set_weight]. apply sql_sum_snoc. }
  assert (Hmi :
    total_miles (get_week_summary d' a b)
    = (if (a <=? wk_date wk) && (wk_date wk <=? b) && is_running_row ex
       then total_miles (get_week_summary d a b) + inject_Z reps / 10
       else total_miles (get_week_summary d a b))%Q).
  { unfold get_week_summary. cbn [total_miles]. rewrite Hrows, filter_app.
    destruct ((a <=? wk_date wk) && (wk_date wk <=? b)); simpl filter;
      [|now rewrite app_nil_r].
    cbn [snd andb]. destruct (is_running_row ex); [|now rewrite app_nil_r].
    rewrite map_app. cbn [map fst]. unfold row_miles at 2. cbn [set_reps].
    apply sql_sum_snoc. }
  split; [exact Hvol|]. split; [exact Hmi|].
  intro Hnone. rewrite Hvol, Hmi.
  unfold is_strength_row, is_running_row. rewrite Hnone. simpl.
  rewrite !andb_false_r. split; reflexivity.
Qed.

Lemma get_week_summary_add_set_witness :
  total_volume (get_week_summary gym_bench (jan 1) (jan 7))
  = (total_volume (get_week_summary gym (jan 1) (jan 7)) + inject_Z 10 * 135)%Q.
Proof.
  refine (proj1 (get_week_summary_add_set gym 1 1 10 135 1 gym_bench
                   (mkWorkout 1 (jan 1) None)
                   (mkExercise 1 "Bench Press" (Some "Upper Strength"%string))
                   (jan 1) (jan 7) eq_refl _ _ _ eq_refl _ eq_refl)).
  - repeat constructor; simpl; intuition discriminate.
  - repeat constructor; simpl; intuition discriminate.
  - now left.
  - now left.
Defined.

(** ** Dashboard weeks *)

(** X21. The dashboard's current week starts on a Monday, ends six days
    later and contains today; its previous week is the seven days right
    before it, also starting on a Monday. *)
Theorem dashboard_week_bounds (today : date) :
  weekday (start_of_week today) = 0 /\
  start_of_week today <= today <= end_of_week today /\
  end_of_week today = start_of_week today + 6 /\
  weekday (start_of_last_week today) = 0 /\
  end_of_last_week today = start_of_last_week today + 6 /\
  end_of_last_week today + 1 = start_of_week today.
Proof.
  unfold end_of_last_week, start_of_last_week, end_of_week, start_of_week, weekday.
  pose proof (Z.mod_pos_bound (today + 6) 7 ltac:(lia)) as Hb.
  pose proof (Z.div_mod (today + 6) 7 ltac:(lia)) as Hd.
  assert (H0 : (today - (today + 6) mod 7 + 6) mod 7 = 0).
  { replace (today - (today + 6) mod 7 + 6) with (((today + 6) / 7) * 7) by lia.
    apply Z.mod_mul. lia. }
  assert (H1 : (today - (today + 6) mod 7 - 7 + 6) mod 7 = 0).
  { replace (today - (today + 6) mod 7 - 7 + 6) with (((today + 6) / 7 - 1) * 7) by lia.
    apply Z.mod_mul. lia. }
  repeat split; try assumption; lia.
Qed.

(** ** Today's workout *)

Lemma find_snoc {A : Type} (p : A -> bool) (l : list A) (x : A) :
  find p l = None -> find p (l ++ [x]) = if p x then Some x else None.
Proof.
  induction l as [|a l IH]; simpl; [reflexivity|].
  destruct (p a); [discriminate|exact IH].
Qed.

(** X22. [get_or_create_todays_workout] keeps one workout per date: in a
    store with at most one workout per date it returns the id of a workout
    dated today, creating it only when none exists, leaves every existing
    workout and set in place, and a second call returns the same id and
    changes nothing. *)
Theorem get_or_create_todays_workout_once (s : server) (today : date) :
  NoDup (map wk_date (workouts (tables s))) ->
  let id := fst (get_or_create_todays_workout s today) in
  let s1 := snd (get_or_create_todays_workout s today) in
  NoDup (map wk_date (workouts (tables s1))) /\
  (exists w, In w (workouts (tables s1)) /\ wk_id w = id /\ wk_date w = today) /\
  get_or_create_todays_workout s1 today = (id, s1) /\
  sets (tables s1) = sets (tables s) /\
  (forall w, In w (workouts (tables s)) -> In w (workouts (tables s1))) /\
  ((exists w, In w (workouts (tables s)) /\ wk_date w = today) -> s1 = s).
Proof.
  intro Hnd. cbv zeta. unfold get_or_create_todays_workout.
  destruct (find (fun w => wk_date w =? today) (workouts (tables s))) as [row|] eqn:E.
  - cbn [fst snd]. rewrite E.
    apply find_some in E. destruct E as [Hrow Hdate]. apply Z.eqb_eq in Hdate.
    repeat split; auto. exists row. auto.
  - pose proof (find_none _ _ E) as Hnone.
    unfold create_workout. cbn [fst snd tables with_workouts_sets workouts sets].
    split; [|split; [|split; [|split; [|split]]]].
    + rewrite map_app. cbn [map wk_date]. apply NoDup_snoc; [assumption|].
      intro Hin. apply in_map_iff in Hin. destruct Hin as (w & Ew & Hw).
      specialize (Hnone w Hw). apply Z.eqb_neq in Hnone. contradiction.
    + exists (mkWorkout (workouts_id_seq s) today None).
      split; [apply in_or_app; right; now left|]. split; reflexivity.
    + rewrite (find_snoc _ _ _ E). cbn [wk_date wk_id]. now rewrite Z.eqb_refl.
    + reflexivity.
    + intros w Hw. apply in_or_app. now left.
    + intros (w & Hw & Ew). specialize (Hnone w Hw).
      apply Z.eqb_neq in Hnone. contradiction.
Qed.

Lemma get_or_create_todays_workout_once_witness :
  fst (get_or_create_todays_workout gym_server (jan 4)) = 4 /\
  get_or_create_todays_workout
    (snd (get_or_create_todays_workout gym_server (jan 4))) (jan 4)
  = (4, snd (get_or_create_todays_workout gym_server (jan 4))).
Proof.
  assert (Hnd : NoDup (map wk_date (workouts (tables gym_server)))).
  { repeat constructor; simpl; intuition discriminate. }
  destruct (get_or_create_todays_workout_once gym_server (jan 4) Hnd)
    as (_ & _ & H & _).
  split; [reflexivity|exact H].
Defined.

(** ** Adding an exercise *)

Lemma exercise_name_taken (l : list exercise) (name : string) :
  existsb (fun e => String.eqb (ex_name e) name) l = false <->
  find (fun e => String.eqb (ex_name e) name) l = None.
Proof.
  induction l as [|a l IH]; simpl; [tauto|].
  destruct (String.eqb (ex_name a) name); simpl; [split; discriminate|exact IH].
Qed.

(** X23. The "Add Exercise" form looks the name up as typed but inserts it
    stripped.  It never breaks the uniqueness of exercise names; when it
    reports [Added], looking up the stripped name returns the new exercise
    with the chosen category; for a name that [strip] leaves unchanged it
    never raises.  But for a non-empty name that is not stored as typed
    while its stripped form is, the flow raises the store's
    [IntegrityError] instead of reporting that the exercise exists. *)
Theorem submit_exercise_outcomes (strip : string -> string) (s : server)
        (name category : string) :
  NoDup (map ex_name (exercises (tables s))) ->
  (forall n s',
     submit_exercise strip s name category = Ok (n, s') ->
     NoDup (map ex_name (exercises (tables s'))) /\
     (n <> Added -> s' = s) /\
     (n = Added ->
      get_exercise_by_name (tables s) (strip name) = None /\
      get_exercise_by_name (tables s') (strip name)
      = Some (mkExercise (exercises_id_seq s) (strip name) (Some category)))) /\
  (strip name = name ->
   exists n s', submit_exercise strip s name category = Ok (n, s')) /\
  (name <> EmptyString ->
   get_exercise_by_name (tables s) name = None ->
   get_exercise_by_name (tables s) (strip name) <> None ->
   submit_exercise strip s name category = Raise IntegrityError).
Proof.
  intro Hnd. unfold submit_exercise, get_exercise_by_name, add_exercise.
  split; [|split].
  - intros n s'.
    destruct (String.eqb name EmptyString).
    { intro H. injection H as <- <-. repeat split; auto; discriminate. }
    destruct (find (fun e => String.eqb (ex_name e) name) (exercises (tables s))).
    { intro H. injection H as <- <-. repeat split; auto; discriminate. }
    destruct (existsb (fun e => String.eqb (ex_name e) (strip name))
                      (exercises (tables s))) eqn:Ex; [discriminate|].
    intro H. injection H as <- <-. cbn [tables exercises].
    pose proof (proj1 (exercise_name_taken _ _) Ex) as Hfind.
    split; [|split; [intro H; now contradiction H|intros _; split; [exact Hfind|]]].
    + rewrite map_app. cbn [map ex_name]. apply NoDup_snoc; [assumption|].
      intro Hin. apply in_map_iff in Hin. destruct Hin as (e & Ee & He).
      pose proof (find_none _ _ Hfind e He) as Hne. cbv beta in Hne.
      rewrite Ee, String.eqb_refl in Hne. discriminate Hne.
    + rewrite (find_snoc _ _ _ Hfind). cbn [ex_name].
      now rewrite String.eqb_refl.
  - intro Hstrip. rewrite Hstrip.
    destruct (String.eqb name EmptyString); [eauto|].
    destruct (find (fun e => String.eqb (ex_name e) name) (exercises (tables s)))
      eqn:Efind; [eauto|].
    rewrite (proj2 (exercise_name_taken _ _) Efind). eauto.
  - intros Hname Hraw Hstripped.
    assert (En : String.eqb name EmptyString = false) by now apply String.eqb_neq.
    rewrite En, Hraw.
    destruct (existsb (fun e => String.eqb (ex_name e) (strip name))
                      (exercises (tables s))) eqn:Ex; [reflexivity|].
    apply exercise_name_taken in Ex. contradiction.
Qed.

Lemma submit_exercise_outcomes_witness :
  submit_exercise drop_spaces gym_server "Bench Press " "Other" = Raise IntegrityError.
Proof.
  assert (Hnd : NoDup (map ex_name (exercises (tables gym_server)))).
  { repeat constructor; simpl; intuition discriminate. }
  destruct (submit_exercise_outcomes drop_spaces gym_server "Bench Press " "Other" Hnd)
    as (_ & _ & H).
  apply H; [discriminate|reflexivity|discriminate].
Defined.

(** ** Reading the PR log back *)

(** X24. [log_pr] raises [IntegrityError] exactly when the exercise does not
    exist.  When it succeeds, the logged record is in [get_pr_history] of
    the exercise, together with everything that was there before, and in
    [get_recent_prs] for every window that reaches back to its date. *)
Theorem log_pr_read_back (d : db) (exercise_id : Z) (pr_type' : string) (value : Q)
        (achieved_date : date) (context : option string) :
  (log_pr d exercise_id pr_type' value achieved_date context = Raise IntegrityError <->
   has_exercise d exercise_id = false) /\
  (forall d',
     log_pr d exercise_id pr_type' value achieved_date context = Ok d' ->
     In (mkPrHistoryRow pr_type' value achieved_date context)
        (get_pr_history d' exercise_id) /\
     (forall x, In x (get_pr_history d exercise_id) ->
                In x (get_pr_history d' exercise_id)) /\
     List.length (get_pr_history d' exercise_id)
     = S (List.length (get_pr_history d exercise_id)) /\
     (forall today days,
        today - days <= achieved_date ->
        exists name,
          In (mkPR (next_pr_id d) exercise_id pr_type' value achieved_date context, name)
             (get_recent_prs d' today days))).
Proof.
  unfold log_pr. destruct (has_exercise d exercise_id) eqn:He.
  - split; [split; discriminate|].
    intros d' H. injection H as <-.
    assert (Hhist : forall x,
              In x (get_pr_history
                      (mkDb (exercises d) (workouts d) (sets d)
                            (personal_records d
                             ++ [mkPR (next_pr_id d) exercise_id pr_type' value
                                      achieved_date context])
                            (next_set_id d) (next_pr_id d + 1) (clock d)) exercise_id)
              <-> In x (get_pr_history d exercise_id)
                  \/ x = mkPrHistoryRow pr_type' value achieved_date context).
    { intro x. unfold get_pr_history. cbn [personal_records].
      rewrite !order_by_In, filter_app, map_app, in_app_iff.
      cbn [filter pr_exercise_id]. rewrite Z.eqb_refl. simpl. intuition. }
    split; [apply Hhist; now right|]. split; [intros x Hx; apply Hhist; now left|].
    split.
    + unfold get_pr_history. cbn [personal_records].
      rewrite !(Permutation_length (order_by_perm _ _)).
      rewrite filter_app, map_app, length_app. cbn [filter pr_exercise_id].
      rewrite Z.eqb_refl. simpl. lia.
    + intros today days Hwin.
      apply has_exercise_iff in He. destruct He as (e & He & Eid).
      exists (ex_name e). unfold get_recent_prs. cbn [personal_records exercises].
      rewrite order_by_In, in_flat_map.
      exists (mkPR (next_pr_id d) exercise_id pr_type' value achieved_date context).
      split.
      * apply filter_In. split; [apply in_or_app; right; now left|].
        cbn [pr_achieved_date]. now apply Z.leb_le.
      * apply in_map_iff. exists e. split; [reflexivity|].
        apply filter_In. split; [assumption|]. cbn [pr_exercise_id].
        apply Z.eqb_eq. auto.
  - split; [split; reflexivity|]. intros d' H. discriminate H.
Qed.

(** ** The first set of an exercise *)

Lemma epley_pos_iff (weight : Q) (reps : Z) :
  1 <= reps -> ((0 < epley weight reps)%Q <-> (0 < weight)%Q).
Proof.
  intro Hreps. unfold epley.
  assert (Hk : (0 < 1 + inject_Z reps / 30)%Q).
  { assert (H0 : (0 <= inject_Z reps / 30)%Q).
    { apply Qle_shift_div_l; [reflexivity|]. rewrite Qmult_0_l.
      change 0%Q with (inject_Z 0). rewrite <- Zle_Qle. lia. }
    lra. }
  rewrite <- (Qmult_lt_r 0 weight _ Hk). now rewrite Qmult_0_l.
Qed.

(** X25. A first-ever set: with no prior set of the exercise and
    [reps >= 1], [check_if_pr] reports both previous values as 0 and sets
    both flags exactly when the weight is positive. *)
Theorem check_if_pr_first_set (d : db) (exercise_id : Z) (weight : Q) (reps : Z)
        (workout_date : date) :
  1 <= reps ->
  (forall s, ~ prior d exercise_id workout_date s) ->
  check_if_pr d exercise_id weight reps workout_date
  = mkPrCheck (Qltb 0 weight) 0 (Qltb 0 weight) 0.
Proof.
  intros Hreps Hno.
  assert (E : prior_sets d exercise_id workout_date = []).
  { apply prior_sets_nil. exact Hno. }
  unfold check_if_pr. rewrite E. simpl.
  f_equal.
  destruct (1 <? reps); [|reflexivity].
  destruct (Qltb 0 weight) eqn:Ew.
  - apply Qltb_lt. apply epley_pos_iff; [exact Hreps|]. now apply Qltb_lt.
  - apply not_true_is_false. intro H. apply Qltb_lt in H.
    apply epley_pos_iff in H; [|exact Hreps]. apply Qltb_lt in H. congruence.
Qed.

Lemma check_if_pr_first_set_witness :
  check_if_pr gym 1 135 10 (jan 1) = mkPrCheck true 0 true 0.
Proof.
  apply (check_if_pr_first_set gym 1 135 10 (jan 1)).
  - discriminate.
  - intros s (Hin & _). exact Hin.
Defined.

(** ** What the submit flows leave alone *)

(** X26. Rejected input writes nothing: when [validate_set_input] rejects
    the set, the strength flow opens no connection and leaves the store as
    it is, and so does the run flow for [miles <= 0] or
    [time_minutes <= 0]. *)
Theorem rejected_input_writes_nothing
        (link : nat -> bool) (float_repr : Q -> string) (w : world)
        (workout_id exercise_id : Z) (today : date) :
  (forall reps weight,
     fst (validate_set_input reps weight) = false ->
     submit_set link float_repr workout_id exercise_id reps weight today w = (Ok tt, w)) /\
  (forall miles time_minutes heart_rate,
     (miles <= 0)%Q \/ (time_minutes <= 0)%Q ->
     submit_run link workout_id exercise_id miles time_minutes heart_rate today w
     = (Ok tt, w)).
Proof.
  split.
  - intros reps weight H. unfold submit_set. now rewrite H.
  - intros miles time_minutes heart_rate H. unfold submit_run.
    destruct (Qle_bool miles 0) eqn:Em; [reflexivity|].
    destruct (Qle_bool time_minutes 0) eqn:Et; [reflexivity|].
    exfalso. destruct H as [H|H]; apply Qle_bool_iff in H; congruence.
Qed.

(** X27. The run flow never writes to the PR log: whatever [check_running_pr]
    answers and whichever connection fails, [personal_records] after
    [submit_run] is what it was before, and so are the workouts and
    exercises. *)
Theorem submit_run_logs_no_pr
        (link : nat -> bool) (d : db) (workout_id exercise_id : Z)
        (miles time_minutes : Q) (heart_rate : Z) (today : date) :
  let final :=
    store (snd (submit_run link workout_id exercise_id miles time_minutes heart_rate
                           today (begin d))) in
  personal_records final = personal_records d /\
  workouts final = workouts d /\
  exercises final = exercises d.
Proof.
  cbv zeta.
  remember (submit_run link workout_id exercise_id miles time_minutes heart_rate today
                       (begin d)) as out eqn:Hout.
  unfold submit_run, begin in Hout.
  destruct (Qle_bool miles 0).
  { unfold ret in Hout. subst out. auto. }
  destruct (Qle_bool time_minutes 0).
  { unfold ret in Hout. subst out. auto. }
  unfold bind, db_add_set, db_update_last_set_hr, db_check_running_pr, command, query,
    ret, get_db in Hout.
  cbn [store opened] in Hout.
  destruct (link 0%nat).
  2:{ subst out. auto. }
  destruct (add_set d workout_id exercise_id (py_int (round_double (miles * 10)))
                   time_minutes) as [[id d1]|err] eqn:Hadd.
  2:{ subst out. auto. }
  apply add_set_ok in Hadd. destruct Hadd as [_ Hd1].
  assert (H1 : personal_records d1 = personal_records d /\
               workouts d1 = workouts d /\ exercises d1 = exercises d)
    by (rewrite Hd1; auto).
  clear Hd1.
  destruct (update_last_set_hr_other_tables d1 workout_id exercise_id heart_rate)
    as (Ew & Ee & Ep & _).
  assert (H2 : personal_records (update_last_set_hr d1 workout_id exercise_id heart_rate)
               = personal_records d /\
               workouts (update_last_set_hr d1 workout_id exercise_id heart_rate)
               = workouts d /\
               exercises (update_last_set_hr d1 workout_id exercise_id heart_rate)
               = exercises d).
  { rewrite Ew, Ee, Ep. exact H1. }
  repeat first
    [ progress cbn [store opened fst snd] in Hout
    | match type of Hout with
      | context [if link ?k then _ else _] => destruct (link k) eqn:?
      | context [match check_running_pr ?a ?b ?c ?e ?f with _ => _ end] =>
          destruct (check_running_pr a b c e f)
      end ];
    subst out; cbn [fst snd store]; assumption.
Qed.

(** ** Examples on the sample stores *)

Lemma get_workout_streak_positive_witness :
  0 < get_workout_streak gym_three_days (jan 3).
Proof.
  apply (proj2 (get_workout_streak_positive gym_three_days (jan 3))). split.
  - left. apply gym_three_days_active. auto.
  - intros x Hx. apply gym_three_days_active in Hx.
    destruct Hx as [->|[->| ->]]; discriminate.
Defined.

Lemma get_days_since_last_workout_spec_witness :
  get_days_since_last_workout gym_three_days (jan 5) = jan 5 - jan 3.
Proof.
  apply (proj1 (proj2 (get_days_since_last_workout_spec gym_three_days (jan 5)))).
  - apply gym_three_days_active. auto.
  - intros x Hx. apply gym_three_days_active in Hx.
    destruct Hx as [->|[->| ->]]; discriminate.
Defined.

Lemma get_workouts_by_date_range_lists_witness :
  In (mkWorkout 2 (jan 2) None) (get_workouts_by_date_range gym_three_days (jan 2) (jan 3)).
Proof.
  apply (proj1 (get_workouts_by_date_range_lists gym_three_days (jan 2) (jan 3))).
  split; [right; now left|]. split; [split; discriminate|].
  exists (mkSet 2 2 1 1 10 135 0). split; [right; now left|reflexivity].
Defined.

Lemma get_last_workout_for_exercise_latest_witness :
  get_last_workout_for_exercise gym_run 2 (Some (jan 3)) = None.
Proof.
  apply (proj1 (get_last_workout_for_exercise_latest gym_run 2 (Some (jan 3)))).
  intros row (s & w & Hs & _ & Hw & Ew & Hlt & _).
  simpl in Hs. destruct Hs as [<-|[]].
  destruct Hw as [<-|[<-|[<-|[]]]]; try discriminate Ew.
  vm_compute in Hlt. discriminate Hlt.
Defined.

Lemma log_pr_read_back_witness :
  In (mkPrHistoryRow "weight" 135 (jan 1) None)
     (get_pr_history (logged gym (log_pr gym 1 "weight" 135 (jan 1) None)) 1).
Proof.
  exact (proj1 (proj2 (log_pr_read_back gym 1 "weight" 135 (jan 1) None) _ eq_refl)).
Defined.

Lemma delete_workout_cascades_witness :
  sets (delete_workout gym_run 3) = [] /\
  get_workout_details (delete_workout gym_run 3) 3 = Raise TypeError.
Proof.
  split; [reflexivity|].
  exact (proj1 (proj2 (delete_workout_cascades gym_run 3))).
Defined.
